(** * nestjs-better-auth: the authorization guard

    A shallow embedding of [AuthGuard] (auth-guard.ts): the role matcher,
    the transport error table and the [canActivate] decision procedure,
    together with the properties the specification states about them;
    then the body-parsing middleware (middlewares.ts) and the wiring, the
    hooks and the factories of the module (auth-module.ts).

    JavaScript strings are sequences of UTF-16 code units; provider calls,
    metadata reads, logging and the writes to the request object are
    effects, recorded in a trace and threaded through a state-and-exception
    monad. *)

From Stdlib Require Import List String Ascii NArith Bool Lia.
Import ListNotations.

Local Open Scope N_scope.
Local Open Scope list_scope.

(* ================================================================== *)
(** ** JavaScript strings *)

Module JsString.

(** A string is its sequence of UTF-16 code units. *)
Definition jsstring : Type := list N.

(** Literals are written in ASCII and read as code units. *)
Definition str (s : string) : jsstring :=
  map N_of_ascii (list_ascii_of_string s).

Definition eqb (a b : jsstring) : bool :=
  if list_eq_dec N.eq_dec a b then true else false.

Definition COMMA : N := 44.

(** ECMAScript WhiteSpace and LineTerminator code points, the ones
    [String.prototype.trim] strips. *)
Definition isWhiteSpace (c : N) : bool :=
  (c =? 9) || (c =? 10) || (c =? 11) || (c =? 12) || (c =? 13) ||
  (c =? 32) || (c =? 160) || (c =? 5760) ||
  ((8192 <=? c) && (c <=? 8202)) ||
  (c =? 8232) || (c =? 8233) || (c =? 8239) || (c =? 8287) ||
  (c =? 12288) || (c =? 65279).

Fixpoint trimStart (s : jsstring) : jsstring :=
  match s with
  | [] => []
  | c :: s' => if isWhiteSpace c then trimStart s' else s
  end.

Definition trimEnd (s : jsstring) : jsstring := rev (trimStart (rev s)).

(** [s.trim()] *)
Definition trim (s : jsstring) : jsstring := trimEnd (trimStart s).

(** [s.split(",")]: the pieces between the commas, in order; a string
    without a comma (the empty one too) is a single piece. *)
Fixpoint split_comma (s : jsstring) : list jsstring :=
  match s with
  | [] => [[]]
  | c :: s' =>
      if c =? COMMA then [] :: split_comma s'
      else match split_comma s' with
           | piece :: pieces => (c :: piece) :: pieces
           | [] => [[c]]
           end
  end.

(** [a.join(",")] *)
Fixpoint join_comma (a : list jsstring) : jsstring :=
  match a with
  | [] => []
  | [x] => x
  | x :: rest => x ++ COMMA :: join_comma rest
  end.

(** [a.includes(x)] on an array of strings. *)
Definition includes (a : list jsstring) (x : jsstring) : bool :=
  existsb (eqb x) a.

Definition comma_free (s : jsstring) : bool :=
  forallb (fun c => negb (c =? COMMA)) s.

End JsString.
Import JsString.

(* ================================================================== *)
(** ** Role values and the role matcher *)

(** [role?: string | string[]] *)
Inductive RoleValue : Type :=
| RoleString (s : jsstring)
| RoleArray (a : list jsstring).

(** [AuthGuard.matchesRequiredRole] *)
Definition matchesRequiredRole
  (role : option RoleValue) (requiredRoles : list jsstring) : bool :=
  match role with
  | None => false                                   (* !role *)
  | Some (RoleString []) => false                   (* the empty string is falsy *)
  | Some (RoleArray a) =>
      existsb (fun r => includes requiredRoles r) a
  | Some (RoleString s) =>
      existsb (fun r => includes requiredRoles (trim r)) (split_comma s)
  end.

(* ================================================================== *)
(** ** JavaScript values, thrown values and completions *)

(** The values an error detail ([args?: unknown]) can take. *)
#[warnings="-register-all"]
Inductive JsValue : Type :=
| VUndefined
| VNull
| VBoolean (b : bool)
| VNumber (n : N)
| VString (s : jsstring)
| VObject (props : list (jsstring * JsValue)).

(** [o.message] on an object: the first property of that name. *)
Fixpoint getProp (name : jsstring) (props : list (jsstring * JsValue)) : JsValue :=
  match props with
  | [] => VUndefined
  | (k, v) :: rest => if JsString.eqb k name then v else getProp name rest
  end.

(** [(args as any)?.message] *)
Definition optMessage (args : JsValue) : JsValue :=
  match args with
  | VObject props => getProp (str "message") props
  | _ => VUndefined
  end.

(** [a ?? b] *)
Definition nullish (a b : JsValue) : JsValue :=
  match a with
  | VUndefined | VNull => b
  | _ => a
  end.

Inductive JsTypeof : Type :=
| TyUndefined | TyObject | TyBoolean | TyNumber | TyString.

(** [typeof v]; note [typeof null] is ["object"]. *)
Definition typeof (v : JsValue) : JsTypeof :=
  match v with
  | VUndefined => TyUndefined
  | VNull => TyObject
  | VBoolean _ => TyBoolean
  | VNumber _ => TyNumber
  | VString _ => TyString
  | VObject _ => TyObject
  end.

(** What the guard and its collaborators can throw. *)
Inductive Exception : Type :=
| UnauthorizedException (response : JsValue)   (* @nestjs/common *)
| ForbiddenException (response : JsValue)      (* @nestjs/common *)
| GraphQLError (message : JsValue) (options : JsValue)
| WsException (error : JsValue)
| JsError (message : jsstring)                 (* new Error(message) *)
| Foreign (v : JsValue).                       (* anything a provider throws *)


(** How a call ends: normally with a value, or abruptly with a thrown one. *)
Inductive Completion (A : Type) : Type :=
| Normal (a : A)
| Throw (e : Exception).
Arguments Normal {A} a.
Arguments Throw {A} e.

(* ================================================================== *)
(** ** The error table *)

Inductive AuthErrorType : Type := UNAUTHORIZED | FORBIDDEN.

(** [ContextType | "graphql"] *)
Inductive ContextType : Type := http | graphql | ws | rpc.

(** Which optional peer packages [require] can resolve. *)
Record Peers : Type := {
  has_graphql : bool;             (* require("graphql") *)
  has_websockets : bool           (* require("@nestjs/websockets") *)
}.

(** [getGraphQLError]: the class is loaded on first use; [require] gives
    the same answer at every call, so the cache is not part of the state. *)
Definition getGraphQLError (peers : Peers) : Completion unit :=
  if has_graphql peers then Normal tt
  else Throw (JsError (str
    "graphql is required for GraphQL support. Please install it: npm install graphql")).

(** [getWsException] *)
Definition getWsException (peers : Peers) : Completion unit :=
  if has_websockets peers then Normal tt
  else Throw (JsError (str
    "@nestjs/websockets is required for WebSocket support. Please install it: npm install @nestjs/websockets @nestjs/platform-socket.io")).

Definition errorCode (kind : AuthErrorType) : jsstring :=
  match kind with
  | UNAUTHORIZED => str "UNAUTHORIZED"
  | FORBIDDEN => str "FORBIDDEN"
  end.

(** The default body of the http rows. *)
Definition httpDefaultBody (kind : AuthErrorType) : JsValue :=
  match kind with
  | UNAUTHORIZED =>
      VObject [(str "code", VString (str "UNAUTHORIZED"));
               (str "message", VString (str "Unauthorized"))]
  | FORBIDDEN =>
      VObject [(str "code", VString (str "FORBIDDEN"));
               (str "message", VString (str "Insufficient permissions"))]
  end.

(** The default message of the graphql rows. *)
Definition graphqlDefaultMessage (kind : AuthErrorType) : JsValue :=
  match kind with
  | UNAUTHORIZED => VString (str "Unauthorized")
  | FORBIDDEN => VString (str "Forbidden")
  end.

(** [AuthContextErrorMap[ctxType][kind](args)]; an omitted argument is
    [VUndefined]. *)
Definition AuthContextErrorMap
  (peers : Peers) (ctxType : ContextType) (kind : AuthErrorType)
  (args : JsValue) : Completion Exception :=
  match ctxType with
  | http =>
      match kind with
      | UNAUTHORIZED =>
          Normal (UnauthorizedException (nullish args (httpDefaultBody UNAUTHORIZED)))
      | FORBIDDEN =>
          Normal (ForbiddenException (nullish args (httpDefaultBody FORBIDDEN)))
      end
  | graphql =>
      match getGraphQLError peers with
      | Throw e => Throw e
      | Normal _ =>
          match typeof args with
          | TyString => Normal (GraphQLError args VUndefined)
          | TyObject =>
              Normal (GraphQLError
                        (nullish (optMessage args) (graphqlDefaultMessage kind))
                        args)
          | _ => Normal (GraphQLError (graphqlDefaultMessage kind) VUndefined)
          end
      end
  | ws =>
      match getWsException peers with
      | Throw e => Throw e
      | Normal _ => Normal (WsException (nullish args (VString (errorCode kind))))
      end
  | rpc => Normal (JsError (errorCode kind))
  end.

(* ================================================================== *)
(** ** Sessions, the request view and the collaborators *)

Module User.
Record t : Type := { id : jsstring; role : option RoleValue }.
End User.

Module SessionData.
Record t : Type := { activeOrganizationId : option jsstring }.
End SessionData.

(** [UserSession]; [session.session] is read with [?.], so it may be
    missing. *)
Module UserSession.
Record t : Type := { user : User.t; session : option SessionData.t }.
End UserSession.

(** Node's header bag, and the [Headers] object built from it. *)
Definition NodeHeaders : Type := list (jsstring * jsstring).
Definition Headers : Type := list (jsstring * jsstring).

(** The object the guard reads its headers from and writes [session] and
    [user] to. A slot that was never assigned is [None]; [Some None] is
    [null]. *)
Module Request.
Record t : Type := {
  headers : option NodeHeaders;
  handshake : option (option NodeHeaders);   (* handshake?.headers *)
  session : option (option UserSession.t);
  user : option (option User.t)
}.
End Request.

(** What the organization plugin's endpoints resolve to: [result?.role]. *)
Definition MemberResult : Type := option (option RoleValue).

(** [this.options.auth.api]; an endpoint that is not a function is [None]. *)
Record AuthApi : Type := {
  getSession : Headers -> Completion (option UserSession.t);
  getActiveMemberRole : option (Headers -> Completion MemberResult);
  getActiveMember : option (Headers -> Completion MemberResult)
}.

Inductive MetadataKey : Type := PUBLIC | OPTIONAL | ROLES | ORG_ROLES.

(** The metadata the decorators leave on one target (a handler or a
    class); [None] is [undefined]. *)
Record Annotations : Type := {
  meta_PUBLIC : option bool;
  meta_OPTIONAL : option bool;
  meta_ROLES : option (list jsstring);
  meta_ORG_ROLES : option (list jsstring)
}.

(** [ExecutionContext]: [getType()], [getHandler()], [getClass()]. *)
Record ExecutionContext : Type := {
  getType : ContextType;
  getHandler : Annotations;
  getClass : Annotations
}.

(** Everything outside the guard. *)
Record Env : Type := {
  api : AuthApi;
  fromNodeHeaders : NodeHeaders -> Headers;     (* better-auth/node *)
  peers : Peers;
  requireNestGraphql : Completion unit          (* require("@nestjs/graphql") *)
}.

(** What the guard does to the outside, in order. *)
Inductive Event : Type :=
| CallGetSession (h : Headers)
| ReadMetadata (key : MetadataKey)
| CallGetActiveMemberRole (h : Headers)
| CallGetActiveMember (h : Headers)
| ConsoleError (e : Exception).

Record State : Type := {
  request : Request.t;
  trace : list Event            (* oldest first *)
}.

(* ================================================================== *)
(** ** The state-and-exception monad of the guard *)

Definition M (A : Type) : Type := State -> Completion A * State.

Definition ret {A} (a : A) : M A := fun st => (Normal a, st).

Definition bind {A B} (m : M A) (k : A -> M B) : M B :=
  fun st =>
    match m st with
    | (Normal a, st') => k a st'
    | (Throw e, st') => (Throw e, st')
    end.

Definition throw {A} (e : Exception) : M A := fun st => (Throw e, st).

(** [try { body } catch (error) { handler }] *)
Definition try_catch {A} (body : M A) (handler : Exception -> M A) : M A :=
  fun st =>
    match body st with
    | (Normal a, st') => (Normal a, st')
    | (Throw e, st') => handler e st'
    end.

Declare Scope guard_scope.
Delimit Scope guard_scope with guard.
Notation "x <- m ;; k" := (bind m (fun x => k))
  (at level 61, m at next level, right associativity) : guard_scope.
Notation "m ;; k" := (bind m (fun _ => k))
  (at level 61, right associativity) : guard_scope.
Local Open Scope guard_scope.

Definition emit (ev : Event) : M unit :=
  fun st => (Normal tt, {| request := request st; trace := trace st ++ [ev] |}).

(** An awaited call to a collaborator: logged, then completed. *)
Definition call {A} (ev : Event) (result : Completion A) : M A :=
  emit ev ;;
  match result with
  | Normal a => ret a
  | Throw e => throw e
  end.

(** [throw make()], where building the error may itself throw. *)
Definition throwMapped {A} (made : Completion Exception) : M A :=
  match made with
  | Normal e => throw e
  | Throw e => throw e
  end.

Definition readRequest : M Request.t := fun st => (Normal (request st), st).

(** [request.session = v] *)
Definition setSession (v : option UserSession.t) : M unit :=
  fun st =>
    let r := request st in
    (Normal tt,
     {| request := {| Request.headers := Request.headers r;
                      Request.handshake := Request.handshake r;
                      Request.session := Some v;
                      Request.user := Request.user r |};
        trace := trace st |}).

(** [request.user = v] *)
Definition setUser (v : option User.t) : M unit :=
  fun st =>
    let r := request st in
    (Normal tt,
     {| request := {| Request.headers := Request.headers r;
                      Request.handshake := Request.handshake r;
                      Request.session := Request.session r;
                      Request.user := Some v |};
        trace := trace st |}).

(* ================================================================== *)
(** ** The reflector *)

Definition MetadataType (key : MetadataKey) : Type :=
  match key with
  | PUBLIC | OPTIONAL => bool
  | ROLES | ORG_ROLES => list jsstring
  end.

(** [reflector.get(key, target)] *)
Definition getMetadata (key : MetadataKey) (target : Annotations)
  : option (MetadataType key) :=
  match key with
  | PUBLIC => meta_PUBLIC target
  | OPTIONAL => meta_OPTIONAL target
  | ROLES => meta_ROLES target
  | ORG_ROLES => meta_ORG_ROLES target
  end.

Fixpoint firstDefined {A} (candidates : list (option A)) : option A :=
  match candidates with
  | [] => None
  | Some a :: _ => Some a
  | None :: rest => firstDefined rest
  end.

(** [reflector.getAllAndOverride(key, targets)]: the value of the first
    target that has one. *)
Definition getAllAndOverride (key : MetadataKey) (targets : list Annotations)
  : M (option (MetadataType key)) :=
  emit (ReadMetadata key) ;;
  ret (firstDefined (map (getMetadata key) targets)).

(** Truthiness of a [boolean | undefined]. *)
Definition truthy (v : option bool) : bool :=
  match v with
  | Some true => true
  | _ => false
  end.

(* ================================================================== *)
(** ** The guard *)

(** utils.ts: [getGqlExecutionContext] loads [@nestjs/graphql] on first
    use; nothing catches a failure of the [require]. The package answers
    the same at every call, so the cache is not part of the state. *)
Definition getGqlExecutionContext (env : Env) : M unit :=
  match requireNestGraphql env with
  | Normal _ => ret tt
  | Throw e => throw e
  end.

(** utils.ts: [getRequestFromContext]. Each branch hands back the one
    request-like object of the invocation, which is the [request] of
    [State]: the [req] of the GraphQL context, the socket client, or the
    http request. *)
Definition getRequestFromContext (env : Env) (context : ExecutionContext)
  : M Request.t :=
  match getType context with
  | graphql =>
      getGqlExecutionContext env ;;
      readRequest            (* GqlExecutionContext.create(context).getContext().req *)
  | ws => readRequest        (* context.switchToWs().getClient() *)
  | http | rpc => readRequest   (* context.switchToHttp().getRequest() *)
  end.

(** [request.headers || request?.handshake?.headers || []] *)
Definition nodeHeadersOf (r : Request.t) : NodeHeaders :=
  match Request.headers r with
  | Some h => h
  | None =>
      match Request.handshake r with
      | Some (Some h) => h
      | _ => []
      end
  end.

(** [AuthGuard.checkUserRole] *)
Definition checkUserRole
  (session : UserSession.t) (requiredRoles : list jsstring) : bool :=
  matchesRequiredRole (User.role (UserSession.user session)) requiredRoles.

(** [result?.role] *)
Definition roleOf (result : MemberResult) : option RoleValue :=
  match result with
  | Some r => r
  | None => None
  end.

(** [AuthGuard.getMemberRoleInOrganization] *)
Definition getMemberRoleInOrganization (env : Env) (headers : Headers)
  : M (option RoleValue) :=
  try_catch
    (match getActiveMemberRole (api env) with
     | Some endpoint =>
         result <- call (CallGetActiveMemberRole headers) (endpoint headers) ;;
         ret (roleOf result)
     | None =>
         match getActiveMember (api env) with
         | Some endpoint =>
             member <- call (CallGetActiveMember headers) (endpoint headers) ;;
             ret (roleOf member)
         | None => ret None
         end
     end)
    (fun error => throw error).

(** [session.session?.activeOrganizationId] *)
Definition activeOrgIdOf (session : UserSession.t) : option jsstring :=
  match UserSession.session session with
  | Some data => SessionData.activeOrganizationId data
  | None => None
  end.

(** [AuthGuard.checkOrgRole] *)
Definition checkOrgRole
  (env : Env) (session : UserSession.t) (headers : Headers)
  (requiredRoles : list jsstring) : M bool :=
  match activeOrgIdOf session with
  | None | Some [] => ret false                     (* !activeOrgId *)
  | Some _ =>
      try_catch
        (memberRole <- getMemberRoleInOrganization env headers ;;
         ret (matchesRequiredRole memberRole requiredRoles))
        (fun error => emit (ConsoleError error) ;; ret false)
  end.

(** [requiredRoles && requiredRoles.length > 0] *)
Definition nonEmptyList (v : option (list jsstring)) : option (list jsstring) :=
  match v with
  | Some (r :: rs) => Some (r :: rs)
  | _ => None
  end.

(** [AuthGuard.canActivate] *)
Definition canActivate (env : Env) (context : ExecutionContext) : M bool :=
  request <- getRequestFromContext env context ;;
  session <- (let h := fromNodeHeaders env (nodeHeadersOf request) in
              call (CallGetSession h) (getSession (api env) h)) ;;
  setSession session ;;
  setUser (option_map UserSession.user session) ;;
  isPublic <- getAllAndOverride PUBLIC [getHandler context; getClass context] ;;
  if truthy isPublic then ret true else
  isOptional <- getAllAndOverride OPTIONAL [getHandler context; getClass context] ;;
  match session with
  | None =>
      if truthy isOptional then ret true
      else throwMapped (AuthContextErrorMap (peers env) (getType context)
                          UNAUTHORIZED VUndefined)
  | Some session =>
      let ctxType := getType context in
      let headers := fromNodeHeaders env (nodeHeadersOf request) in
      requiredRoles <- getAllAndOverride ROLES [getHandler context; getClass context] ;;
      match nonEmptyList requiredRoles with
      | Some requiredRoles =>
          if checkUserRole session requiredRoles then ret tt
          else throwMapped (AuthContextErrorMap (peers env) ctxType FORBIDDEN VUndefined)
      | None => ret tt
      end ;;
      requiredOrgRoles <-
        getAllAndOverride ORG_ROLES [getHandler context; getClass context] ;;
      match nonEmptyList requiredOrgRoles with
      | Some requiredOrgRoles =>
          hasOrgRole <- checkOrgRole env session headers requiredOrgRoles ;;
          if hasOrgRole then ret tt
          else throwMapped (AuthContextErrorMap (peers env) ctxType FORBIDDEN VUndefined)
      | None => ret tt
      end ;;
      ret true
  end.

(** One invocation: the guard run on a request whose slots are yet
    unassigned, with an empty trace. *)
Definition initialState (headers : option NodeHeaders)
  (handshake : option (option NodeHeaders)) : State :=
  {| request := {| Request.headers := headers;
                   Request.handshake := handshake;
                   Request.session := None;
                   Request.user := None |};
     trace := [] |}.

(* ================================================================== *)
(** ** The vocabulary of the specification *)

(** The policy of a handler: each field is the handler's annotation if it
    has one, else the class's, else absent (false, or no roles). *)
Record Policy : Type := {
  isPublic : bool;
  isOptional : bool;
  requiredRoles : list jsstring;
  requiredOrgRoles : list jsstring
}.

Definition handlerFirst {A} (onHandler onClass : option A) (absent : A) : A :=
  match onHandler, onClass with
  | Some v, _ => v
  | None, Some v => v
  | None, None => absent
  end.

Definition resolvePolicy (context : ExecutionContext) : Policy :=
  let h := getHandler context in
  let c := getClass context in
  {| isPublic := handlerFirst (meta_PUBLIC h) (meta_PUBLIC c) false;
     isOptional := handlerFirst (meta_OPTIONAL h) (meta_OPTIONAL c) false;
     requiredRoles := handlerFirst (meta_ROLES h) (meta_ROLES c) [];
     requiredOrgRoles := handlerFirst (meta_ORG_ROLES h) (meta_ORG_ROLES c) [] |}.

(** The roles a role value grants, computed with the matcher's own
    helpers; [grantsRole] below says the same without them. *)
Definition normalizedRoles (role : option RoleValue) : list jsstring :=
  match role with
  | None => []
  | Some (RoleArray a) => a
  | Some (RoleString []) => []
  | Some (RoleString s) => map trim (split_comma s)
  end.

(** Two role sets intersect. *)
Definition intersects (granted required : list jsstring) : Prop :=
  exists r, In r granted /\ In r required.

(** The role names a role value grants, in the words of the
    specification and without reference to the matcher's own helpers. A
    string is cut at its commas: an entry is a stretch without a comma that
    runs from the start of the string or from just after a comma, to the
    end of the string or to just before a comma. *)
Definition entryOf (s piece : jsstring) : Prop :=
  ~ In COMMA piece /\
  exists before after,
    s = before ++ piece ++ after /\
    (before = [] \/ exists b, before = b ++ [COMMA]) /\
    (after = [] \/ exists a, after = COMMA :: a).

(** Only whitespace. *)
Definition blank (s : jsstring) : Prop :=
  Forall (fun c => isWhiteSpace c = true) s.

(** Neither the first nor the last character is whitespace. *)
Definition outerTrimmed (r : jsstring) : Prop :=
  (forall c rest, r = c :: rest -> isWhiteSpace c = false) /\
  (forall front c, r = front ++ [c] -> isWhiteSpace c = false).

(** An entry names the role left when the whitespace around it is taken
    away. *)
Definition nameOf (piece r : jsstring) : Prop :=
  outerTrimmed r /\
  exists lead tail, piece = lead ++ r ++ tail /\ blank lead /\ blank tail.

(** An absent or empty value grants nothing, a list grants its members, a
    string grants the names of its entries. *)
Definition grantsRole (role : option RoleValue) (r : jsstring) : Prop :=
  match role with
  | None => False
  | Some (RoleArray a) => In r a
  | Some (RoleString s) =>
      s <> [] /\ exists piece, entryOf s piece /\ nameOf piece r
  end.

(** Some granted role is a required one. *)
Definition grantsAny (role : option RoleValue) (required : list jsstring)
  : Prop :=
  exists r, grantsRole role r /\ In r required.

(** [v] is [undefined] or [null]. *)
Definition isNullish (v : JsValue) : bool :=
  match v with
  | VUndefined | VNull => true
  | _ => false
  end.






(** The transport's package is installed (http and rpc need none). *)
Definition peerLoaded (p : Peers) (ctxType : ContextType) : bool :=
  match ctxType with
  | graphql => has_graphql p
  | ws => has_websockets p
  | http | rpc => true
  end.

(** The error table as the specification words it, row by row. *)
Definition tableEntry
  (ctxType : ContextType) (kind : AuthErrorType) (detail : JsValue) : Exception :=
  match ctxType, kind, detail with
  | http, UNAUTHORIZED, (VUndefined | VNull) =>
      UnauthorizedException
        (VObject [(str "code", VString (str "UNAUTHORIZED"));
                  (str "message", VString (str "Unauthorized"))])
  | http, UNAUTHORIZED, given => UnauthorizedException given
  | http, FORBIDDEN, (VUndefined | VNull) =>
      ForbiddenException
        (VObject [(str "code", VString (str "FORBIDDEN"));
                  (str "message", VString (str "Insufficient permissions"))])
  | http, FORBIDDEN, given => ForbiddenException given
  | ws, UNAUTHORIZED, (VUndefined | VNull) => WsException (VString (str "UNAUTHORIZED"))
  | ws, FORBIDDEN, (VUndefined | VNull) => WsException (VString (str "FORBIDDEN"))
  | ws, _, given => WsException given
  | rpc, UNAUTHORIZED, _ => JsError (str "UNAUTHORIZED")
  | rpc, FORBIDDEN, _ => JsError (str "FORBIDDEN")
  | graphql, _, VString s => GraphQLError (VString s) VUndefined
  | graphql, _, VObject props =>
      match getProp (str "message") props, kind with
      | (VUndefined | VNull), UNAUTHORIZED =>
          GraphQLError (VString (str "Unauthorized")) detail
      | (VUndefined | VNull), FORBIDDEN =>
          GraphQLError (VString (str "Forbidden")) detail
      | message, _ => GraphQLError message detail
      end
  | graphql, UNAUTHORIZED, VNull => GraphQLError (VString (str "Unauthorized")) VNull
  | graphql, FORBIDDEN, VNull => GraphQLError (VString (str "Forbidden")) VNull
  | graphql, UNAUTHORIZED, _ => GraphQLError (VString (str "Unauthorized")) VUndefined
  | graphql, FORBIDDEN, _ => GraphQLError (VString (str "Forbidden")) VUndefined
  end.

(** Obtaining the request view did not throw. *)
Definition viewObtained (env : Env) (context : ExecutionContext) (st : State)
  : bool :=
  match fst (getRequestFromContext env context st) with
  | Normal _ => true
  | Throw _ => false
  end.

(** The outcome of one run of the guard, the state it leaves and the
    events it added to the trace. *)
Definition outcome (env : Env) (context : ExecutionContext) (st : State)
  : Completion bool := fst (canActivate env context st).

Definition finalState (env : Env) (context : ExecutionContext) (st : State)
  : State := snd (canActivate env context st).

Definition events (env : Env) (context : ExecutionContext) (st : State)
  : list Event :=
  skipn (List.length (trace st)) (trace (finalState env context st)).

(** The headers every provider call of the invocation is made with. *)
Definition headersOf (env : Env) (st : State) : Headers :=
  fromNodeHeaders env (nodeHeadersOf (request st)).

(** How the first two statements of a run complete: with what obtaining
    the request view throws, if it throws, else with what [getSession]
    answers. *)
Definition sessionFetch (env : Env) (context : ExecutionContext) (st : State)
  : Completion (option UserSession.t) :=
  match fst (getRequestFromContext env context st) with
  | Throw e => Throw e
  | Normal _ => getSession (api env) (headersOf env st)
  end.

Definition isGetSession (ev : Event) : bool :=
  match ev with CallGetSession _ => true | _ => false end.

Definition isOrgLookup (ev : Event) : bool :=
  match ev with
  | CallGetActiveMemberRole _ | CallGetActiveMember _ => true
  | _ => false
  end.

(** The organization-role lookup, made with headers [h], raises [e]. *)
Definition lookupRaises (a : AuthApi) (h : Headers) (e : Exception) : Prop :=
  match getActiveMemberRole a with
  | Some endpoint => endpoint h = Throw e
  | None =>
      match getActiveMember a with
      | Some endpoint => endpoint h = Throw e
      | None => False
      end
  end.

(** The request once session [s] is attached to it. *)
Definition attach (s : option UserSession.t) (r : Request.t) : Request.t :=
  {| Request.headers := Request.headers r;
     Request.handshake := Request.handshake r;
     Request.session := Some s;
     Request.user := Some (option_map UserSession.user s) |}.

(** The state after a run that attached [s] and added the events [new]. *)
Definition afterRun (st : State) (s : option UserSession.t) (new : list Event)
  : State :=
  {| request := attach s (request st); trace := trace st ++ new |}.

(** The system-role step lets the caller through: no roles are required,
    or the user's role matches one. *)
Definition systemRolesPass (session : UserSession.t) (p : Policy) : bool :=
  match requiredRoles p with
  | [] => true
  | required => checkUserRole session required
  end.

(** [activeOrganizationId] is there and not the empty string. *)
Definition hasActiveOrg (session : UserSession.t) : bool :=
  match activeOrgIdOf session with
  | Some (_ :: _) => true
  | _ => false
  end.

(** What [throw make()] completes with. *)
Definition raised (made : Completion Exception) : Completion bool :=
  match made with
  | Normal e => Throw e
  | Throw e => Throw e
  end.

(** [entries] are the pieces of a comma-separated string that writes the
    role names [names]: no piece holds a comma, and each piece is a name
    with optional whitespace around it. *)
Definition writtenAs (entries names : list jsstring) : Prop :=
  Forall2 (fun e r => comma_free e = true /\ trim e = r) entries names.

(** The two presentations of the role names [names], as a list and as
    one comma-separated string, get the same verdict against [required]. *)
Definition sameVerdict (names required : list jsstring) : Prop :=
  matchesRequiredRole (Some (RoleArray names)) required
  = matchesRequiredRole (Some (RoleString (join_comma names))) required.

(* ================================================================== *)
(** ** Sample invocations *)

Module Sample.

Definition bearer : NodeHeaders :=
  [(str "authorization", str "Bearer 3f1c")].

Definition noAnnotations : Annotations :=
  {| meta_PUBLIC := None; meta_OPTIONAL := None;
     meta_ROLES := None; meta_ORG_ROLES := None |}.

(** A session whose user holds the roles in [role]. *)
Definition sessionOf (role : option RoleValue) (org : option jsstring)
  : UserSession.t :=
  {| UserSession.user := {| User.id := str "u1"; User.role := role |};
     UserSession.session := Some {| SessionData.activeOrganizationId := org |} |}.

Definition plainUser : UserSession.t :=
  sessionOf (Some (RoleString (str "user"))) None.

Definition orgUser : UserSession.t :=
  sessionOf (Some (RoleString (str "user, moderator"))) (Some (str "org_1")).

Definition databaseDown : Exception :=
  Foreign (VString (str "organization table unavailable")).

(** A provider that knows [who] and whose member-role endpoint ends as
    [lookup]. *)
Definition provider (who : option UserSession.t)
  (lookup : Completion MemberResult) : AuthApi :=
  {| getSession := fun _ => Normal who;
     getActiveMemberRole := Some (fun _ => lookup);
     getActiveMember := None |}.

Definition envOf (a : AuthApi) : Env :=
  {| api := a;
     fromNodeHeaders := fun nodeHeaders => nodeHeaders;
     peers := {| has_graphql := true; has_websockets := true |};
     requireNestGraphql := Normal tt |}.

Definition owner : Completion MemberResult :=
  Normal (Some (Some (RoleString (str "owner")))).

Definition incoming : State := initialState (Some bearer) None.

(** [@Roles(["admin", "moderator"])] on the handler of an http route. *)
Definition adminModeratorRoute : ExecutionContext :=
  {| getType := http;
     getHandler :=
       {| meta_PUBLIC := None; meta_OPTIONAL := None;
          meta_ROLES := Some [str "admin"; str "moderator"];
          meta_ORG_ROLES := None |};
     getClass := noAnnotations |}.

(** [@OrgRoles(["owner"])] on the handler of a websocket gateway. *)
Definition orgOwnerRoute : ExecutionContext :=
  {| getType := ws;
     getHandler :=
       {| meta_PUBLIC := None; meta_OPTIONAL := None;
          meta_ROLES := None;
          meta_ORG_ROLES := Some [str "owner"] |};
     getClass := noAnnotations |}.

(** [@Roles(["admin"])] and [@OrgRoles(["owner"])] together, on a
    graphql resolver. *)
Definition adminOwnerRoute : ExecutionContext :=
  {| getType := graphql;
     getHandler :=
       {| meta_PUBLIC := None; meta_OPTIONAL := None;
          meta_ROLES := Some [str "admin"];
          meta_ORG_ROLES := Some [str "owner"] |};
     getClass := noAnnotations |}.

(** [@AllowAnonymous()] on a handler of a class that asks for roles. *)
Definition publicRoute : ExecutionContext :=
  {| getType := http;
     getHandler :=
       {| meta_PUBLIC := Some true; meta_OPTIONAL := None;
          meta_ROLES := None; meta_ORG_ROLES := None |};
     getClass :=
       {| meta_PUBLIC := None; meta_OPTIONAL := None;
          meta_ROLES := Some [str "admin"];
          meta_ORG_ROLES := Some [str "owner"] |} |}.

(** [@OptionalAuth()] together with [@Roles(["admin"])]. *)
Definition optionalAdminRoute : ExecutionContext :=
  {| getType := http;
     getHandler :=
       {| meta_PUBLIC := None; meta_OPTIONAL := Some true;
          meta_ROLES := Some [str "admin"]; meta_ORG_ROLES := None |};
     getClass := noAnnotations |}.

(** A route without annotations, reached over rpc. *)
Definition protectedRoute : ExecutionContext :=
  {| getType := rpc; getHandler := noAnnotations; getClass := noAnnotations |}.

End Sample.


(* ================================================================== *)
(** ** The guard in closed form *)

(** The member-role endpoint [getMemberRoleInOrganization] picks, with the
    event of calling it and what the call completes with. *)
Definition orgLookup (a : AuthApi) (h : Headers)
  : option (Event * Completion MemberResult) :=
  match getActiveMemberRole a with
  | Some endpoint => Some (CallGetActiveMemberRole h, endpoint h)
  | None =>
      match getActiveMember a with
      | Some endpoint => Some (CallGetActiveMember h, endpoint h)
      | None => None
      end
  end.

(** The org-role step lets the caller through. *)
Definition orgRolesPass (env : Env) (h : Headers) (session : UserSession.t)
  (p : Policy) : bool :=
  match requiredOrgRoles p with
  | [] => true
  | required =>
      hasActiveOrg session &&
      match orgLookup (api env) h with
      | Some (_, Normal member) => matchesRequiredRole (roleOf member) required
      | _ => false
      end
  end.

(** The decision of the guard for a request whose session fetch gave [s]. *)
Definition allows (env : Env) (context : ExecutionContext) (st : State)
  (s : option UserSession.t) : bool :=
  let p := resolvePolicy context in
  isPublic p ||
  match s with
  | None => isOptional p
  | Some session =>
      systemRolesPass session p && orgRolesPass env (headersOf env st) session p
  end.

(** The error kind a refused request gets. *)
Definition denial (s : option UserSession.t) : AuthErrorType :=
  match s with
  | None => UNAUTHORIZED
  | Some _ => FORBIDDEN
  end.

(** What the org-role step adds to the trace. *)
Definition orgStepEvents (env : Env) (h : Headers) (session : UserSession.t)
  (p : Policy) : list Event :=
  match requiredOrgRoles p with
  | [] => []
  | _ =>
      if hasActiveOrg session then
        match orgLookup (api env) h with
        | None => []
        | Some (ev, Normal _) => [ev]
        | Some (ev, Throw e) => [ev; ConsoleError e]
        end
      else []
  end.

(** What a run adds to the trace, after the session fetch gave [s]. *)
Definition expectedEvents (env : Env) (context : ExecutionContext) (st : State)
  (s : option UserSession.t) : list Event :=
  let p := resolvePolicy context in
  let h := headersOf env st in
  [CallGetSession h; ReadMetadata PUBLIC] ++
  (if isPublic p then []
   else
     ReadMetadata OPTIONAL ::
     match s with
     | None => []
     | Some session =>
         ReadMetadata ROLES ::
         (if systemRolesPass session p
          then ReadMetadata ORG_ROLES :: orgStepEvents env h session p
          else [])
     end).

(** The headers a provider call was made with. *)
Definition callHeaders (ev : Event) : option Headers :=
  match ev with
  | CallGetSession h | CallGetActiveMemberRole h | CallGetActiveMember h => Some h
  | ReadMetadata _ | ConsoleError _ => None
  end.

Definition isConsoleError (ev : Event) : bool :=
  match ev with ConsoleError _ => true | _ => false end.

Definition isGetActiveMember (ev : Event) : bool :=
  match ev with CallGetActiveMember _ => true | _ => false end.

(** The metadata keys a trace reads, in order. *)
Fixpoint policyReads (evs : list Event) : list MetadataKey :=
  match evs with
  | [] => []
  | ReadMetadata key :: rest => key :: policyReads rest
  | _ :: rest => policyReads rest
  end.

(** [l] is an initial segment of [full]. *)
Fixpoint isPrefixOf (l full : list MetadataKey) : bool :=
  match l, full with
  | [], _ => true
  | a :: l', b :: full' =>
      match a, b with
      | PUBLIC, PUBLIC | OPTIONAL, OPTIONAL | ROLES, ROLES
      | ORG_ROLES, ORG_ROLES => isPrefixOf l' full'
      | _, _ => false
      end
  | _ :: _, [] => false
  end.

(** The session with its user's role replaced. *)
Definition withRole (session : UserSession.t) (role : option RoleValue)
  : UserSession.t :=
  {| UserSession.user :=
       {| User.id := User.id (UserSession.user session); User.role := role |};
     UserSession.session := UserSession.session session |}.

(** The session with its session data replaced. *)
Definition withSessionData (session : UserSession.t)
  (data : option SessionData.t) : UserSession.t :=
  {| UserSession.user := UserSession.user session;
     UserSession.session := data |}.

(** Further sample invocations. *)
Module Sample2.

(** A provider without the organization plugin. *)
Definition pluginless (who : option UserSession.t) : AuthApi :=
  {| getSession := fun _ => Normal who;
     getActiveMemberRole := None;
     getActiveMember := None |}.

(** A provider with both member endpoints: the direct one resolves to
    nothing, the other one would say owner. *)
Definition twoEndpoints (who : option UserSession.t) : AuthApi :=
  {| getSession := fun _ => Normal who;
     getActiveMemberRole := Some (fun _ => Normal None);
     getActiveMember := Some (fun _ => Sample.owner) |}.

(** A session whose active organization id is the empty string. *)
Definition blankOrgUser : UserSession.t :=
  Sample.sessionOf (Some (RoleString (str "admin"))) (Some []).

(** A class that asks for admin, with [@Roles([])] on the handler. *)
Definition rolesLiftedRoute : ExecutionContext :=
  {| getType := http;
     getHandler :=
       {| meta_PUBLIC := None; meta_OPTIONAL := None;
          meta_ROLES := Some []; meta_ORG_ROLES := None |};
     getClass :=
       {| meta_PUBLIC := None; meta_OPTIONAL := None;
          meta_ROLES := Some [str "admin"]; meta_ORG_ROLES := None |} |}.

(** What a provider whose session store is down throws. *)
Definition sessionStoreDown : Exception :=
  Foreign (VString (str "session store unavailable")).

Definition brokenProvider : AuthApi :=
  {| getSession := fun _ => Throw sessionStoreDown;
     getActiveMemberRole := None;
     getActiveMember := None |}.




End Sample2.

(* ================================================================== *)
(** ** middlewares.ts: skipping the body parser on the auth routes *)

Module Middleware.

(** [s.startsWith(prefix)] *)
Fixpoint startsWith (s prefix : jsstring) : bool :=
  match prefix, s with
  | [], _ => true
  | _ :: _, [] => false
  | p :: prefix', c :: s' => (c =? p) && startsWith s' prefix'
  end.

(** The express request, as far as the middleware and the parsers it
    calls touch it. *)
Record Req : Type := {
  baseUrl : jsstring;
  body : JsValue;
  rawBody : option (list N)
}.

(** What a parser hands its [verify] callback as the buffer. *)
Inductive VerifyArg : Type :=
| ABuffer (bytes : list N)
| NotABuffer (v : JsValue).

(** [rawBodyParser(req, _res, buffer)]: the request afterwards and the
    value returned. *)
Definition rawBodyParser (req : Req) (buffer : VerifyArg) : Req * bool :=
  match buffer with
  | ABuffer bytes =>                   (* Buffer.isBuffer(buffer) *)
      ({| baseUrl := baseUrl req; body := body req; rawBody := Some bytes |},
       true)
  | NotABuffer _ => (req, true)
  end.

(** [SkipBodyParsingMiddlewareOptions] *)
Record Options : Type := {
  basePath : option jsstring;
  enableRawBodyParser : option bool
}.

(** [OptionsJson], as far as it is filled in here. *)
Record OptionsJson : Type := {
  verify : option (Req -> VerifyArg -> Req * bool)
}.

(** The two express parsers: what each leaves on the request and the
    error, if any, it hands its callback. *)
Record Express : Type := {
  json : OptionsJson -> Req -> Req * option Exception;
  urlencoded : Req -> Req * option Exception     (* { extended: true } *)
}.

Inductive Event : Type :=
| JsonParser (capturesRawBody : bool)
| UrlencodedParser
| Next (err : option Exception).

(** The destructuring defaults of the factory. *)
Definition basePathOf (options : Options) : jsstring :=
  match basePath options with
  | Some p => p
  | None => str "/api/auth"
  end.

Definition rawBodyEnabled (options : Options) : bool :=
  match enableRawBodyParser options with
  | Some b => b
  | None => false
  end.

(** [jsonParserOptions] *)
Definition jsonParserOptions (options : Options) : OptionsJson :=
  if rawBodyEnabled options
  then {| verify := Some rawBodyParser |}
  else {| verify := None |}.

Definition hasVerify (o : OptionsJson) : bool :=
  match verify o with
  | Some _ => true
  | None => false
  end.

(** The middleware [SkipBodyParsingMiddleware(options)] returns, run on
    one request: the request afterwards and what was called, in order. *)
Definition SkipBodyParsingMiddleware (options : Options) (express : Express)
  (req : Req) : Req * list Event :=
  if startsWith (baseUrl req) (basePathOf options) then
    (req, [Next None])
  else
    let parserOptions := jsonParserOptions options in
    match json express parserOptions req with
    | (req', Some err) =>
        (req', [JsonParser (hasVerify parserOptions); Next (Some err)])
    | (req', None) =>
        match urlencoded express req' with
        | (req'', err) =>
            (req'',
             [JsonParser (hasVerify parserOptions); UrlencodedParser; Next err])
        end
    end.

Definition isNext (ev : Event) : bool :=
  match ev with Next _ => true | _ => false end.

Definition isParser (ev : Event) : bool :=
  match ev with Next _ => false | _ => true end.

End Middleware.

(* ================================================================== *)
(** ** auth-module.ts: wiring, hooks and the module factories *)

Module AuthModule.

(** [auth.options.trustedOrigins]: an array of origins or a function. *)
Inductive TrustedOrigins : Type :=
| OriginList (origins : list jsstring)
| OriginFunction.

(** The options [configure] reads; an absent field is [None]. *)
Record Options : Type := {
  trustedOrigins : option TrustedOrigins;     (* auth.options.trustedOrigins *)
  disableTrustedOriginsCors : option bool;
  disableBodyParser : option bool;
  enableRawBodyParser : option bool
}.

(** What [configure] does to the http adapter, the consumer and the
    logger, in order. *)
Inductive Event : Type :=
| EnableCors (origin : list jsstring) (methods : list jsstring)
    (credentials : bool)
| ApplyBodyParsing (mw : Middleware.Options) (routes : jsstring)
| ApplyAuthHandler (routes : jsstring)
| LoggerLog (message : jsstring).

(** [trustedOrigins && Array.isArray(trustedOrigins)] *)
Definition isNotFunctionBased (t : option TrustedOrigins) : bool :=
  match t with
  | Some (OriginList _) => true
  | _ => false
  end.

Definition isSet {A} (v : option A) : bool :=
  match v with
  | Some _ => true
  | None => false
  end.

Definition originsOf (t : option TrustedOrigins) : list jsstring :=
  match t with
  | Some (OriginList origins) => origins
  | _ => []
  end.

(** The first statement of [configure]: CORS is switched on, or the
    function-based origins are turned down, or nothing happens. *)
Definition corsStep (options : Options) : Completion unit * list Event :=
  let t := trustedOrigins options in
  let off := truthy (disableTrustedOriginsCors options) in
  if negb off && isNotFunctionBased t then
    (Normal tt,
     [EnableCors (originsOf t)
        [str "GET"; str "POST"; str "PUT"; str "DELETE"] true])
  else if isSet t && negb off && negb (isNotFunctionBased t) then
    (Throw (JsError (str
       "Function-based trustedOrigins not supported in NestJS. Use string array or disable CORS with disableTrustedOriginsCors: true.")),
     [])
  else (Normal tt, []).

(** [AuthModule.configure], for a module whose [basePath] is given: how
    it completes and what it has done by then. *)
Definition configure (basePath : jsstring) (options : Options)
  : Completion unit * list Event :=
  match corsStep options with
  | (Throw e, done) => (Throw e, done)
  | (Normal _, done) =>
      (Normal tt,
       done ++
       (if negb (truthy (disableBodyParser options)) then
          [ApplyBodyParsing
             {| Middleware.basePath := Some basePath;
                Middleware.enableRawBodyParser := enableRawBodyParser options |}
             (str "*path")]
        else []) ++
       [ApplyAuthHandler basePath;
        LoggerLog (str "AuthModule initialized BetterAuth on '"
                   ++ basePath ++ str "'")])
  end.

Definition isApplyAuthHandler (ev : Event) : bool :=
  match ev with ApplyAuthHandler _ => true | _ => false end.

(** The body-parsing middlewares a list of registrations holds. *)
Fixpoint bodyParsers (evs : list Event) : list Middleware.Options :=
  match evs with
  | [] => []
  | ApplyBodyParsing mw _ :: rest => mw :: bodyParsers rest
  | _ :: rest => bodyParsers rest
  end.

(** *** Hooks *)

(** User functions (configured hooks, provider methods) are opaque: each
    has a name, and the world says how a call to it completes. *)
Definition FnId : Type := N.

(** The context a hook is run with, as far as the module reads it. *)
Record Ctx : Type := { path : jsstring }.

(** A hook function: one given to betterAuth, or the closure that
    [setupHooks] puts in its place. *)
#[warnings="-register-all"]
Inductive HookFn : Type :=
| Configured (f : FnId)
| Installed (originalHook : option HookFn) (hookPath : option jsstring)
    (providerMethod : FnId) (providerClass : N).

(** [auth.options.hooks] *)
Inductive HooksConfig : Type :=
| HooksUndefined
| HooksNull
| HooksObject (before after : option HookFn).

Inductive HookType : Type := BeforeHook | AfterHook.

(** A method of a provider's prototype: its function and, where the
    metadata is present, the path it holds ([Reflect.hasMetadata] is the
    outer option, [Reflect.getMetadata] what is inside). *)
Record Method : Type := {
  fn : FnId;
  beforeMeta : option (option jsstring);
  afterMeta : option (option jsstring)
}.

(** A provider the discovery service lists. *)
Record Provider : Type := {
  hasHookMetadata : bool;   (* metatype && Reflect.getMetadata(HOOK_KEY, metatype) *)
  instance : N;
  methods : list Method     (* metadataScanner.getAllMethodNames(prototype) *)
}.

Definition metaOf (hookType : HookType) (m : Method)
  : option (option jsstring) :=
  match hookType with
  | BeforeHook => beforeMeta m
  | AfterHook => afterMeta m
  end.

Definition hookOf (hookType : HookType) (cfg : HooksConfig) : option HookFn :=
  match cfg with
  | HooksObject b a =>
      match hookType with
      | BeforeHook => b
      | AfterHook => a
      end
  | _ => None
  end.

Definition setHook (hookType : HookType) (h : option HookFn)
  (cfg : HooksConfig) : HooksConfig :=
  match cfg with
  | HooksObject b a =>
      match hookType with
      | BeforeHook => HooksObject h a
      | AfterHook => HooksObject b h
      end
  | other => other
  end.

(** One round of the loop of [setupHooks], for one entry of HOOKS. *)
Definition setupHook (hookType : HookType) (providerMethod : Method)
  (providerClass : N) (cfg : HooksConfig) : HooksConfig :=
  match metaOf hookType providerMethod with
  | None => cfg                                     (* !hasHook: continue *)
  | Some hookPath =>
      setHook hookType
        (Some (Installed (hookOf hookType cfg) hookPath
                 (fn providerMethod) providerClass))
        cfg
  end.

(** [AuthModule.setupHooks] *)
Definition setupHooks (providerMethod : Method) (providerClass : N)
  (cfg : HooksConfig) : HooksConfig :=
  match cfg with
  | HooksObject _ _ =>
      setupHook AfterHook providerMethod providerClass
        (setupHook BeforeHook providerMethod providerClass cfg)
  | other => other                                  (* !hooks: return *)
  end.

(** [typeof hooks === "object"] *)
Definition hooksConfigured (cfg : HooksConfig) : bool :=
  match cfg with
  | HooksUndefined => false
  | HooksNull | HooksObject _ _ => true
  end.

(** [AuthModule.onModuleInit]: the hooks configuration afterwards. *)
Definition onModuleInit (discovered : list Provider) (cfg : HooksConfig)
  : Completion HooksConfig :=
  let providers := filter hasHookMetadata discovered in
  let hasHookProviders := negb (Nat.eqb (List.length providers) 0) in
  if hasHookProviders && negb (hooksConfigured cfg) then
    Throw (JsError (str
      "Detected @Hook providers but Better Auth 'hooks' are not configured. Add 'hooks: {}' to your betterAuth(...) options."))
  else if negb (hooksConfigured cfg) then Normal cfg
  else
    Normal
      (fold_left
         (fun cfg provider =>
            fold_left
              (fun cfg method => setupHooks method (instance provider) cfg)
              (methods provider) cfg)
         providers cfg).

(** What running a hook does: the user functions called, in order. *)
Inductive Call : Type :=
| Ran (f : FnId) (this : option N) (ctx : Ctx).

(** How the user functions complete, and with what value. *)
Definition World : Type := FnId -> Ctx -> Completion JsValue.

(** [hookPath && hookPath !== ctx.path] *)
Definition skipsPath (hookPath : option jsstring) (ctx : Ctx) : bool :=
  match hookPath with
  | None | Some [] => false
  | Some p => negb (JsString.eqb p (path ctx))
  end.

(** [await f(ctx);] as a statement: the value is dropped. *)
Definition awaited (c : Completion JsValue) : Completion JsValue :=
  match c with
  | Normal _ => Normal VUndefined
  | Throw e => Throw e
  end.

(** Running a hook function on [ctx], after the calls [done]: what it
    resolves to and the calls made by then. *)
Fixpoint runHook (w : World) (hook : HookFn) (ctx : Ctx) (done : list Call)
  : Completion JsValue * list Call :=
  match hook with
  | Configured f => (w f ctx, done ++ [Ran f None ctx])
  | Installed originalHook hookPath providerMethod providerClass =>
      match
        match originalHook with
        | Some original =>
            match runHook w original ctx done with
            | (c, done') => (awaited c, done')
            end
        | None => (Normal VUndefined, done)
        end
      with
      | (Throw e, done') => (Throw e, done')
      | (Normal _, done') =>
          if skipsPath hookPath ctx then (Normal VUndefined, done')
          else (awaited (w providerMethod ctx),
                done' ++ [Ran providerMethod (Some providerClass) ctx])
      end
  end.

(** Running whatever sits in a hook slot; an empty slot does nothing. *)
Definition runSlot (w : World) (slot : option HookFn) (ctx : Ctx)
  (done : list Call) : Completion JsValue * list Call :=
  match slot with
  | Some hook => runHook w hook ctx done
  | None => (Normal VUndefined, done)
  end.

(** A registration: the path, the method and the instance it is bound
    to. *)
Definition Registration : Type := (option jsstring * FnId * N)%type.

(** The registrations of one kind the providers carry, in the order
    [onModuleInit] meets them. *)
Definition registrations (hookType : HookType) (discovered : list Provider)
  : list Registration :=
  flat_map
    (fun provider =>
       flat_map
         (fun m =>
            match metaOf hookType m with
            | Some hookPath => [(hookPath, fn m, instance provider)]
            | None => []
            end)
         (methods provider))
    (filter hasHookMetadata discovered).

(** Calling the registered methods one after the other, each only on its
    path, until one throws; values are dropped on the way. *)
Fixpoint runInOrder (w : World) (regs : list Registration) (ctx : Ctx)
  (sofar : Completion JsValue * list Call)
  : Completion JsValue * list Call :=
  match regs with
  | [] => sofar
  | (hookPath, f, this) :: rest =>
      runInOrder w rest ctx
        match sofar with
        | (Throw e, done) => (Throw e, done)
        | (Normal _, done) =>
            if skipsPath hookPath ctx then (Normal VUndefined, done)
            else (awaited (w f ctx), done ++ [Ran f (Some this) ctx])
        end
  end.

(** The slot after the registrations [regs] were installed on top of
    what it held. *)
Definition installAll (regs : list Registration) (slot : option HookFn)
  : option HookFn :=
  fold_left
    (fun held reg =>
       match reg with
       | (hookPath, f, this) => Some (Installed held hookPath f this)
       end)
    regs slot.

(** *** The module factories *)

(** [name in o], on own properties. *)
Definition hasProp (name : jsstring) (props : list (jsstring * JsValue)) : bool :=
  existsb (fun kv => JsString.eqb (fst kv) name) props.

(** [{ ...o, name: v }] *)
Definition setProp (name : jsstring) (v : JsValue)
  (props : list (jsstring * JsValue)) : list (jsstring * JsValue) :=
  if hasProp name props then
    map (fun kv => if JsString.eqb (fst kv) name then (fst kv, v) else kv) props
  else props ++ [(name, v)].

(** Truthiness of a value. *)
Definition truthyValue (v : JsValue) : bool :=
  match v with
  | VUndefined | VNull | VBoolean false | VNumber 0%N | VString [] => false
  | _ => true
  end.

(** [typeof arg1 === "object" && arg1 !== null && "auth" in arg1] *)
Definition isOptionsObject (arg1 : JsValue) : bool :=
  match arg1 with
  | VObject props => hasProp (str "auth") props
  | _ => false
  end.

(** [normalizedOptions] of [forRoot(arg1, arg2)]; a missing [arg2] is
    [None]. *)
Definition normalizedOptions (arg1 : JsValue)
  (arg2 : option (list (jsstring * JsValue))) : JsValue :=
  if isOptionsObject arg1 then arg1
  else
    VObject (setProp (str "auth") arg1
               match arg2 with
               | Some props => props
               | None => []                         (* arg2 ?? {} *)
               end).

Inductive ModuleClass : Type :=
| ConfiguredModule (id : N)          (* the module super.forRoot names *)
| AuthModuleWithoutControllers.

Inductive ProviderDef : Type :=
| Provided (id : N)                  (* a provider super.forRoot lists *)
| AppGuard.                          (* { provide: APP_GUARD, useClass: AuthGuard } *)

(** [DynamicModule], as far as [forRoot] rewrites it; [rest] stands for
    the fields it copies over. *)
Record DynamicModule : Type := {
  module : ModuleClass;
  controllers : option (list N);
  providers : option (list ProviderDef);
  rest : JsValue
}.

(** [o.name] on a value. *)
Definition optionOf (name : string) (o : JsValue) : JsValue :=
  match o with
  | VObject props => getProp (str name) props
  | _ => VUndefined
  end.

(** [AuthModule.forRoot(arg1, arg2)], given what the configurable module
    builder's own [forRoot] returns for the normalized options. *)
Definition forRoot (superForRoot : JsValue -> DynamicModule)
  (arg1 : JsValue) (arg2 : option (list (jsstring * JsValue)))
  : DynamicModule :=
  let normalized := normalizedOptions arg1 arg2 in
  let forRootResult := superForRoot normalized in
  {| module :=
       if truthyValue (optionOf "disableControllers" normalized)
       then AuthModuleWithoutControllers
       else module forRootResult;
     controllers :=
       if truthyValue (optionOf "disableControllers" normalized)
       then Some []
       else controllers forRootResult;
     providers :=
       Some
         (match providers forRootResult with
          | Some ps => ps
          | None => []
          end ++
          (if negb (truthyValue (optionOf "disableGlobalAuthGuard" normalized))
           then [AppGuard]
           else []));
     rest := rest forRootResult |}.

End AuthModule.

(** Sample requests, options and providers for the module. *)
Module Sample3.

Definition authorsRequest : Middleware.Req :=
  {| Middleware.baseUrl := str "/api/authors";
     Middleware.body := VUndefined;
     Middleware.rawBody := None |}.

Definition defaults : Middleware.Options :=
  {| Middleware.basePath := None; Middleware.enableRawBodyParser := None |}.

(** Parsers that leave the request alone and report no error. *)
Definition quietExpress : Middleware.Express :=
  {| Middleware.json := fun _ req => (req, None);
     Middleware.urlencoded := fun req => (req, None) |}.

Definition corsOptions : AuthModule.Options :=
  {| AuthModule.trustedOrigins :=
       Some (AuthModule.OriginList [str "https://app.example"]);
     AuthModule.disableTrustedOriginsCors := None;
     AuthModule.disableBodyParser := None;
     AuthModule.enableRawBodyParser := Some true |}.

(** A [@Hook] provider with a method hooked before [/sign-in/email]. *)
Definition signInProvider : AuthModule.Provider :=
  {| AuthModule.hasHookMetadata := true;
     AuthModule.instance := 7;
     AuthModule.methods :=
       [{| AuthModule.fn := 1;
           AuthModule.beforeMeta := Some (Some (str "/sign-in/email"));
           AuthModule.afterMeta := None |}] |}.

End Sample3.
(* ================================================================== *)
(** ** Strings: splitting, joining, membership *)

Section StringFacts.

Lemma eqb_true_iff (a b : jsstring) : JsString.eqb a b = true <-> a = b.
Proof.
  unfold JsString.eqb.
  destruct (list_eq_dec N.eq_dec a b) as [e | n]; split; intro H;
    try assumption; try reflexivity.
  - discriminate H.
  - contradiction.
Qed.

Lemma includes_In (a : list jsstring) (x : jsstring) :
  includes a x = true <-> In x a.
Proof.
  unfold includes. rewrite existsb_exists. split.
  - intros [y [Hy Heq]]. apply eqb_true_iff in Heq. now subst.
  - intro H. exists x. split; [assumption | now apply eqb_true_iff].
Qed.

Lemma split_comma_nonempty (s : jsstring) : split_comma s <> [].
Proof.
  destruct s as [| c s]; simpl.
  - discriminate.
  - destruct (c =? COMMA); [discriminate |].
    destruct (split_comma s); discriminate.
Qed.

Lemma split_comma_single (x : jsstring) :
  comma_free x = true -> split_comma x = [x].
Proof.
  induction x as [| c x IH]; simpl; intro H.
  - reflexivity.
  - apply andb_true_iff in H. destruct H as [Hc Hx].
    apply negb_true_iff in Hc. rewrite Hc, (IH Hx). reflexivity.
Qed.

Lemma split_comma_app (x rest : jsstring) :
  comma_free x = true ->
  split_comma (x ++ COMMA :: rest) = x :: split_comma rest.
Proof.
  induction x as [| c x IH]; simpl; intro H.
  - reflexivity.
  - apply andb_true_iff in H. destruct H as [Hc Hx].
    apply negb_true_iff in Hc. rewrite Hc, (IH Hx). reflexivity.
Qed.

(** Splitting undoes joining, for pieces without commas. *)
Lemma split_join (entries : list jsstring) :
  entries <> [] ->
  forallb comma_free entries = true ->
  split_comma (join_comma entries) = entries.
Proof.
  induction entries as [| x rest IH]; intros Hne Hfree.
  - contradiction.
  - simpl in Hfree. apply andb_true_iff in Hfree. destruct Hfree as [Hx Hrest].
    destruct rest as [| y rest'].
    + simpl. now apply split_comma_single.
    + change (join_comma (x :: y :: rest'))
        with (x ++ COMMA :: join_comma (y :: rest')).
      rewrite (split_comma_app _ _ Hx). f_equal.
      apply IH; [discriminate | assumption].
Qed.

(** Joining undoes splitting, for every string. *)
Lemma join_split (s : jsstring) : join_comma (split_comma s) = s.
Proof.
  induction s as [| c s IH]; simpl.
  - reflexivity.
  - destruct (c =? COMMA) eqn:Hc.
    + apply N.eqb_eq in Hc. subst c.
      pose proof (split_comma_nonempty s) as Hne.
      destruct (split_comma s) as [| p ps]; [contradiction |].
      simpl in *. now rewrite IH.
    + pose proof (split_comma_nonempty s) as Hne.
      destruct (split_comma s) as [| p ps]; [contradiction |].
      destruct ps; simpl in *; now rewrite <- IH.
Qed.

Lemma join_comma_nil (entries : list jsstring) :
  join_comma entries = [] -> entries = [] \/ entries = [[]].
Proof.
  destruct entries as [| x [| y rest]]; simpl; intro H.
  - now left.
  - right. now subst.
  - destruct x; discriminate H.
Qed.

Lemma writtenAs_comma_free (entries names : list jsstring) :
  writtenAs entries names -> forallb comma_free entries = true.
Proof.
  induction 1 as [| e r es rs [Hfree _] _ IH]; simpl.
  - reflexivity.
  - now rewrite Hfree, IH.
Qed.

Lemma writtenAs_existsb (entries names required : list jsstring) :
  writtenAs entries names ->
  existsb (fun r => includes required (trim r)) entries
  = existsb (fun r => includes required r) names.
Proof.
  induction 1 as [| e r es rs [_ Htrim] _ IH]; simpl.
  - reflexivity.
  - now rewrite Htrim, IH.
Qed.

(** The matcher on a non-empty string looks at the trimmed pieces. *)
Lemma matches_string (s : jsstring) (required : list jsstring) :
  s <> [] ->
  matchesRequiredRole (Some (RoleString s)) required
  = existsb (fun r => includes required (trim r)) (split_comma s).
Proof.
  destruct s; [contradiction | reflexivity].
Qed.

(** The matcher decides intersection with the normalized role set. *)
Lemma matches_iff_intersects (role : option RoleValue) (required : list jsstring) :
  matchesRequiredRole role required = true
  <-> intersects (normalizedRoles role) required.
Proof.
  unfold intersects.
  destruct role as [[s | a] |].
  - destruct s as [| c s].
    + simpl. split; [discriminate | intros [r [[] _]]].
    + rewrite matches_string by discriminate.
      change (normalizedRoles (Some (RoleString (c :: s))))
        with (map trim (split_comma (c :: s))).
      rewrite existsb_exists. split.
      * intros [p [Hp Hin]]. exists (trim p). split.
        -- now apply in_map.
        -- now apply includes_In.
      * intros [r [Hr Hin]]. apply in_map_iff in Hr.
        destruct Hr as [p [Heq Hp]]. subst r.
        exists p. split; [assumption | now apply includes_In].
  - simpl. rewrite existsb_exists. split.
    + intros [r [Hr Hin]]. exists r. split; [assumption | now apply includes_In].
    + intros [r [Hr Hin]]. exists r. split; [assumption | now apply includes_In].
  - simpl. split; [discriminate | intros [r [[] _]]].
Qed.

(** What [trim] removes is whitespace, at the two ends only. *)
Lemma trimStart_decompose (s : jsstring) :
  exists lead, s = lead ++ trimStart s /\ forallb isWhiteSpace lead = true.
Proof.
  induction s as [| c s [lead [Heq Hws]]]; simpl.
  - now exists [].
  - destruct (isWhiteSpace c) eqn:Hc.
    + exists (c :: lead). simpl. rewrite Hc, Hws. split; [now f_equal | reflexivity].
    + now exists [].
Qed.

Lemma trim_decompose (s : jsstring) :
  exists lead tail,
    s = lead ++ trim s ++ tail /\
    forallb isWhiteSpace lead = true /\ forallb isWhiteSpace tail = true.
Proof.
  destruct (trimStart_decompose s) as [lead [Hs Hlead]].
  destruct (trimStart_decompose (rev (trimStart s))) as [back [Hrev Hback]].
  exists lead, (rev back). repeat split.
  - unfold trim, trimEnd. rewrite <- rev_app_distr, <- Hrev, rev_involutive.
    exact Hs.
  - exact Hlead.
  - apply forallb_forall. intros c Hc. apply in_rev in Hc.
    now apply (proj1 (forallb_forall _ _) Hback).
Qed.

Lemma trimStart_head (s rest : jsstring) (c : N) :
  trimStart s = c :: rest -> isWhiteSpace c = false.
Proof.
  induction s as [| d s IH]; simpl; [discriminate |].
  destruct (isWhiteSpace d) eqn:Hd; [exact IH |].
  intro H. injection H as Hc _. now subst.
Qed.

(** *** The matcher's helpers against the words of the specification *)

Lemma comma_free_iff (p : jsstring) : comma_free p = true <-> ~ In COMMA p.
Proof.
  unfold comma_free. induction p as [| c p IH]; simpl.
  - split; [intros _ [] | reflexivity].
  - rewrite andb_true_iff, negb_true_iff, IH. split.
    + intros [Hc Hp] [Heq | Hin]; [| now apply Hp].
      subst c. now rewrite N.eqb_refl in Hc.
    + intro H. split.
      * apply N.eqb_neq. intro Heq. apply H. now left.
      * intro Hin. apply H. now right.
Qed.

Lemma split_comma_pieces_free (s p : jsstring) :
  In p (split_comma s) -> comma_free p = true.
Proof.
  revert p. induction s as [| c s IH]; intros p Hin; simpl in Hin.
  - destruct Hin as [<- | []]. reflexivity.
  - destruct (c =? COMMA) eqn:Hc.
    + destruct Hin as [<- | Hin]; [reflexivity | now apply IH].
    + pose proof (split_comma_nonempty s) as Hne.
      destruct (split_comma s) as [| q qs]; [contradiction |].
      destruct Hin as [<- | Hin].
      * simpl. rewrite Hc. simpl. apply IH. now left.
      * apply IH. now right.
Qed.

(** Cutting at a comma cuts the list of pieces there. *)
Lemma split_comma_cat (x y : jsstring) :
  split_comma (x ++ COMMA :: y) = split_comma x ++ split_comma y.
Proof.
  induction x as [| c x IH]; simpl.
  - reflexivity.
  - destruct (c =? COMMA).
    + now rewrite IH.
    + rewrite IH. pose proof (split_comma_nonempty x) as Hne.
      destruct (split_comma x) as [| q qs]; [contradiction | reflexivity].
Qed.

Lemma join_comma_cat (front back : list jsstring) :
  front <> [] -> back <> [] ->
  join_comma (front ++ back) = join_comma front ++ COMMA :: join_comma back.
Proof.
  intros Hfront Hback.
  induction front as [| x front IH]; [contradiction |].
  destruct front as [| y front].
  - destruct back as [| z back]; [contradiction | reflexivity].
  - change (join_comma ((x :: y :: front) ++ back))
      with (x ++ COMMA :: join_comma ((y :: front) ++ back)).
    rewrite IH by discriminate.
    change (join_comma (x :: y :: front))
      with (x ++ COMMA :: join_comma (y :: front)).
    now rewrite <- app_assoc.
Qed.

(** The pieces [split_comma] returns are the entries of the string. *)
Lemma split_comma_entries (s p : jsstring) :
  In p (split_comma s) <-> entryOf s p.
Proof.
  split.
  - intro Hin. split.
    + apply comma_free_iff. now apply (split_comma_pieces_free s).
    + destruct (in_split _ _ Hin) as [front [back Hpieces]].
      pose proof (join_split s) as Hjoin. rewrite Hpieces in Hjoin.
      destruct front as [| f front], back as [| b back].
      * exists [], []. rewrite app_nil_r. simpl in Hjoin.
        split; [now symmetry | split; now left].
      * exists [], (COMMA :: join_comma (b :: back)).
        change (join_comma ([] ++ p :: b :: back))
          with (p ++ COMMA :: join_comma (b :: back)) in Hjoin.
        split; [now symmetry |].
        split; [now left | right; now eexists].
      * exists (join_comma (f :: front) ++ [COMMA]), [].
        rewrite join_comma_cat in Hjoin by discriminate.
        simpl (join_comma [p]) in Hjoin.
        rewrite app_nil_r, <- app_assoc. simpl.
        split; [now symmetry |].
        split; [right; now eexists | now left].
      * exists (join_comma (f :: front) ++ [COMMA]),
          (COMMA :: join_comma (b :: back)).
        rewrite join_comma_cat in Hjoin by discriminate.
        change (join_comma (p :: b :: back))
          with (p ++ COMMA :: join_comma (b :: back)) in Hjoin.
        rewrite <- app_assoc. simpl.
        split; [now symmetry |].
        split; right; now eexists.
  - intros [Hfree [before [after [Hs [Hbefore Hafter]]]]].
    apply comma_free_iff in Hfree. subst s.
    assert (Hhead : exists rest, split_comma (p ++ after) = p :: rest).
    { destruct Hafter as [-> | [a ->]].
      - rewrite app_nil_r, (split_comma_single p Hfree). now eexists.
      - rewrite (split_comma_app p a Hfree). now eexists. }
    destruct Hhead as [rest Hhead].
    destruct Hbefore as [-> | [b ->]].
    + simpl. rewrite Hhead. now left.
    + rewrite <- app_assoc. simpl. rewrite split_comma_cat, Hhead.
      apply in_or_app. right. now left.
Qed.

Lemma blank_forallb (s : jsstring) :
  forallb isWhiteSpace s = true <-> blank s.
Proof.
  unfold blank. rewrite forallb_forall, Forall_forall. reflexivity.
Qed.

Lemma trimStart_blank_app (lead x : jsstring) :
  blank lead -> trimStart (lead ++ x) = trimStart x.
Proof.
  induction 1 as [| c lead Hc _ IH]; simpl; [reflexivity |].
  now rewrite Hc.
Qed.

Lemma trimStart_blank (t : jsstring) : blank t -> trimStart t = [].
Proof.
  intro H. rewrite <- (app_nil_r t). now rewrite trimStart_blank_app.
Qed.

Lemma trim_first (p rest : jsstring) (c : N) :
  trim p = c :: rest -> isWhiteSpace c = false.
Proof.
  unfold trim, trimEnd. intro H.
  destruct (trimStart_decompose (rev (trimStart p))) as [back [Hrev _]].
  apply (f_equal (@rev N)) in Hrev.
  rewrite rev_involutive, rev_app_distr, H in Hrev.
  simpl in Hrev. now apply (trimStart_head p _ c Hrev).
Qed.

Lemma trim_last (p front : jsstring) (c : N) :
  trim p = front ++ [c] -> isWhiteSpace c = false.
Proof.
  unfold trim, trimEnd. intro H.
  apply (f_equal (@rev N)) in H.
  rewrite rev_involutive, rev_app_distr in H. simpl in H.
  now apply (trimStart_head _ _ c H).
Qed.

(** [trim] takes an entry to the role it names. *)
Lemma trim_names (p r : jsstring) : trim p = r <-> nameOf p r.
Proof.
  split.
  - intros <-. split.
    + split; [intros c rest H; exact (trim_first p rest c H)
             | intros front c H; exact (trim_last p front c H)].
    + destruct (trim_decompose p) as [lead [tail [Hp [Hlead Htail]]]].
      exists lead, tail. split; [exact Hp |].
      split; now apply blank_forallb.
  - intros [[Hfirst Hlast] [lead [tail [-> [Hlead Htail]]]]].
    unfold trim, trimEnd. rewrite (trimStart_blank_app _ _ Hlead).
    destruct r as [| c r'].
    + simpl. now rewrite (trimStart_blank _ Htail).
    + assert (Hc : isWhiteSpace c = false) by now apply (Hfirst c r').
      simpl. rewrite Hc.
      change (c :: r' ++ tail) with ((c :: r') ++ tail).
      rewrite rev_app_distr.
      assert (Hback : blank (rev tail)).
      { unfold blank in *. rewrite Forall_forall in *. intros x Hx.
        apply Htail. now apply in_rev. }
      rewrite (trimStart_blank_app _ _ Hback).
      assert (Hne : c :: r' <> []) by discriminate.
      destruct (exists_last Hne) as [front [z Hz]]. rewrite Hz.
      rewrite rev_app_distr. simpl.
      rewrite (Hlast front z Hz). simpl.
      now rewrite rev_involutive.
Qed.

(** The normalized roles are the roles granted. *)
Lemma normalized_grants (role : option RoleValue) (r : jsstring) :
  In r (normalizedRoles role) <-> grantsRole role r.
Proof.
  destruct role as [[s | a] |]; simpl; try tauto.
  destruct s as [| c s].
  - simpl. split; [intros [] | intros [H _]; now contradiction H].
  - rewrite in_map_iff. split.
    + intros [p [Hr Hp]]. split; [discriminate |].
      exists p. split; [now apply split_comma_entries | now apply trim_names].
    + intros [_ [p [Hentry Hname]]]. exists p.
      split; [now apply trim_names | now apply split_comma_entries].
Qed.

Lemma matches_iff_grantsAny (role : option RoleValue)
  (required : list jsstring) :
  matchesRequiredRole role required = true <-> grantsAny role required.
Proof.
  rewrite matches_iff_intersects. unfold intersects, grantsAny.
  split; intros [r [Hg Hr]]; exists r; split; try assumption;
    now apply normalized_grants.
Qed.

End StringFacts.

(* ================================================================== *)
(** ** The error table, row by row *)

Section ErrorTable.

Lemma errorMap_table (p : Peers) (ctxType : ContextType)
  (kind : AuthErrorType) (detail : JsValue) :
  peerLoaded p ctxType = true ->
  AuthContextErrorMap p ctxType kind detail
  = Normal (tableEntry ctxType kind detail).
Proof.
  intro Hpeer.
  destruct ctxType; simpl in Hpeer; unfold AuthContextErrorMap.
  - destruct kind, detail; reflexivity.
  - unfold getGraphQLError. rewrite Hpeer.
    destruct detail as [| | b | n | s | props]; try (destruct kind; reflexivity).
    cbn -[str]. destruct (getProp (str "message") props), kind; reflexivity.
  - unfold getWsException. rewrite Hpeer.
    destruct kind, detail; reflexivity.
  - destruct kind, detail; reflexivity.
Qed.

(** Without the transport's package the mapper throws instead. *)
Lemma errorMap_peer_missing (p : Peers) (ctxType : ContextType)
  (kind : AuthErrorType) (detail : JsValue) :
  peerLoaded p ctxType = false ->
  exists message, AuthContextErrorMap p ctxType kind detail = Throw (JsError message).
Proof.
  intro Hpeer.
  destruct ctxType; simpl in Hpeer; try discriminate Hpeer;
    unfold AuthContextErrorMap, getGraphQLError, getWsException;
    rewrite Hpeer; eexists; reflexivity.
Qed.

End ErrorTable.

(* ================================================================== *)
(** ** The paths through the guard *)

Section GuardPaths.

Variable env : Env.
Variable context : ExecutionContext.
Variable st : State.

Let policy := resolvePolicy context.
Let h := headersOf env st.
Let targets := [getHandler context; getClass context].

Lemma skipn_own_length {A} (old new : list A) :
  skipn (List.length old) (old ++ new) = new.
Proof.
  induction old as [| a old IH]; simpl; [reflexivity | exact IH].
Qed.

Lemma truthy_public :
  truthy (firstDefined (@map Annotations (option bool) (getMetadata PUBLIC) targets))
  = isPublic policy.
Proof.
  simpl. unfold handlerFirst.
  destruct (meta_PUBLIC (getHandler context)) as [[|]|];
    destruct (meta_PUBLIC (getClass context)) as [[|]|]; reflexivity.
Qed.

Lemma truthy_optional :
  truthy (firstDefined (@map Annotations (option bool) (getMetadata OPTIONAL) targets))
  = isOptional policy.
Proof.
  simpl. unfold handlerFirst.
  destruct (meta_OPTIONAL (getHandler context)) as [[|]|];
    destruct (meta_OPTIONAL (getClass context)) as [[|]|]; reflexivity.
Qed.

Lemma nonEmpty_roles :
  nonEmptyList (firstDefined (@map Annotations (option (list jsstring)) (getMetadata ROLES) targets))
  = nonEmptyList (Some (requiredRoles policy)).
Proof.
  simpl. unfold handlerFirst.
  destruct (meta_ROLES (getHandler context)) as [[|]|];
    destruct (meta_ROLES (getClass context)) as [[|]|]; reflexivity.
Qed.

Lemma nonEmpty_orgRoles :
  nonEmptyList (firstDefined (@map Annotations (option (list jsstring)) (getMetadata ORG_ROLES) targets))
  = nonEmptyList (Some (requiredOrgRoles policy)).
Proof.
  simpl. unfold handlerFirst.
  destruct (meta_ORG_ROLES (getHandler context)) as [[|]|];
    destruct (meta_ORG_ROLES (getClass context)) as [[|]|]; reflexivity.
Qed.

(** A session fetch that answers: the view was obtained and
    [getSession] answered. *)
Lemma sessionFetch_answers (s : option UserSession.t) :
  sessionFetch env context st = Normal s ->
  getRequestFromContext env context st = (Normal (request st), st) /\
  getSession (api env) h = Normal s.
Proof.
  unfold sessionFetch, getRequestFromContext, getGqlExecutionContext, h.
  destruct (getType context); cbn; try (intro H; now split).
  destruct (requireNestGraphql env) as [[] | e]; cbn; intro H;
    [now split | discriminate H].
Qed.

(** A session fetch that throws: by the view, before anything is called,
    or by [getSession]. *)
Lemma sessionFetch_throws (e : Exception) :
  sessionFetch env context st = Throw e ->
  (getRequestFromContext env context st = (Throw e, st)) \/
  (getRequestFromContext env context st = (Normal (request st), st) /\
   getSession (api env) h = Throw e).
Proof.
  unfold sessionFetch, getRequestFromContext, getGqlExecutionContext, h.
  destruct (getType context); cbn; try (intro H; right; now split).
  destruct (requireNestGraphql env) as [[] | e0]; cbn; intro H.
  - right. now split.
  - left. now injection H as <-.
Qed.

Ltac enter_guard Hs :=
  let Hview := fresh "Hview" in
  let Hget := fresh "Hget" in
  destruct (sessionFetch_answers _ Hs) as [Hview Hget];
  unfold canActivate, bind; rewrite Hview;
  fold (@bind) ;
  unfold call, bind;
  cbn -[getMetadata firstDefined map nonEmptyList AuthContextErrorMap checkOrgRole];
  unfold h, headersOf in Hget; rewrite Hget;
  cbn -[getMetadata firstDefined map nonEmptyList AuthContextErrorMap checkOrgRole];
  fold targets; rewrite ?truthy_public, ?truthy_optional, ?nonEmpty_roles, ?nonEmpty_orgRoles.

Ltac tidy_trace := unfold afterRun, attach; rewrite <- ?app_assoc; reflexivity.

Lemma run_fetch_throws (e : Exception) :
  sessionFetch env context st = Throw e ->
  canActivate env context st
  = (Throw e,
     {| request := request st;
        trace := trace st ++
                 if viewObtained env context st then [CallGetSession h]
                 else [] |}).
Proof.
  intro Hs. unfold viewObtained.
  destruct (sessionFetch_throws _ Hs) as [Hview | [Hview Hget]];
    unfold canActivate, bind; rewrite Hview; cbn.
  - rewrite app_nil_r. now destruct st.
  - unfold call, bind. cbn. unfold h, headersOf in Hget. now rewrite Hget.
Qed.

Lemma run_public (s : option UserSession.t) :
  sessionFetch env context st = Normal s ->
  isPublic policy = true ->
  canActivate env context st
  = (Normal true, afterRun st s [CallGetSession h; ReadMetadata PUBLIC]).
Proof.
  intros Hs Hp. enter_guard Hs. fold policy. rewrite Hp. cbn. tidy_trace.
Qed.

Lemma run_anonymous_optional :
  sessionFetch env context st = Normal None ->
  isPublic policy = false ->
  isOptional policy = true ->
  canActivate env context st
  = (Normal true,
     afterRun st None
       [CallGetSession h; ReadMetadata PUBLIC; ReadMetadata OPTIONAL]).
Proof.
  intros Hs Hp Ho. enter_guard Hs. fold policy. rewrite Hp, Ho. cbn. tidy_trace.
Qed.

Lemma run_anonymous_required :
  sessionFetch env context st = Normal None ->
  isPublic policy = false ->
  isOptional policy = false ->
  canActivate env context st
  = (raised (AuthContextErrorMap (peers env) (getType context)
               UNAUTHORIZED VUndefined),
     afterRun st None
       [CallGetSession h; ReadMetadata PUBLIC; ReadMetadata OPTIONAL]).
Proof.
  intros Hs Hp Ho. enter_guard Hs. fold policy. rewrite Hp, Ho.
  unfold throwMapped, raised.
  destruct (AuthContextErrorMap (peers env) (getType context) UNAUTHORIZED VUndefined);
    cbn; tidy_trace.
Qed.

Lemma run_roles_fail (session : UserSession.t) :
  sessionFetch env context st = Normal (Some session) ->
  isPublic policy = false ->
  systemRolesPass session policy = false ->
  canActivate env context st
  = (raised (AuthContextErrorMap (peers env) (getType context)
               FORBIDDEN VUndefined),
     afterRun st (Some session)
       [CallGetSession h; ReadMetadata PUBLIC; ReadMetadata OPTIONAL;
        ReadMetadata ROLES]).
Proof.
  intros Hs Hp Hr. enter_guard Hs. fold policy. rewrite Hp.
  unfold systemRolesPass in Hr.
  destruct (requiredRoles policy) as [| r rs]; [discriminate Hr |].
  cbn -[AuthContextErrorMap checkOrgRole]. rewrite Hr.
  unfold throwMapped, raised.
  destruct (AuthContextErrorMap (peers env) (getType context) FORBIDDEN VUndefined);
    cbn; tidy_trace.
Qed.

Lemma run_no_orgRoles (session : UserSession.t) :
  sessionFetch env context st = Normal (Some session) ->
  isPublic policy = false ->
  systemRolesPass session policy = true ->
  requiredOrgRoles policy = [] ->
  canActivate env context st
  = (Normal true,
     afterRun st (Some session)
       [CallGetSession h; ReadMetadata PUBLIC; ReadMetadata OPTIONAL;
        ReadMetadata ROLES; ReadMetadata ORG_ROLES]).
Proof.
  intros Hs Hp Hr Ho. enter_guard Hs. fold policy. rewrite Hp, Ho.
  unfold systemRolesPass in Hr.
  destruct (requiredRoles policy) as [| r rs];
    cbn -[AuthContextErrorMap checkOrgRole]; rewrite ?Hr; cbn; tidy_trace.
Qed.

Lemma run_orgRoles (session : UserSession.t) :
  sessionFetch env context st = Normal (Some session) ->
  isPublic policy = false ->
  systemRolesPass session policy = true ->
  requiredOrgRoles policy <> [] ->
  canActivate env context st
  = match checkOrgRole env session h (requiredOrgRoles policy)
            (afterRun st (Some session)
               [CallGetSession h; ReadMetadata PUBLIC; ReadMetadata OPTIONAL;
                ReadMetadata ROLES; ReadMetadata ORG_ROLES]) with
    | (Normal true, st') => (Normal true, st')
    | (Normal false, st') =>
        (raised (AuthContextErrorMap (peers env) (getType context)
                   FORBIDDEN VUndefined), st')
    | (Throw e, st') => (Throw e, st')
    end.
Proof.
  intros Hs Hp Hr Ho.
  destruct (requiredOrgRoles policy) as [| o os] eqn:Horg; [contradiction |].
  enter_guard Hs. fold policy. rewrite Hp, Horg.
  unfold systemRolesPass in Hr.
  destruct (requiredRoles policy) as [| r rs];
    cbn -[AuthContextErrorMap checkOrgRole]; rewrite ?Hr;
    cbn -[AuthContextErrorMap checkOrgRole];
    unfold afterRun, attach, h, headersOf;
    rewrite <- !app_assoc; cbn -[AuthContextErrorMap checkOrgRole];
    (destruct (checkOrgRole _ _ _ _ _) as [[[|] | e] st']; cbn;
     unfold throwMapped, raised;
     try destruct (AuthContextErrorMap (peers env) (getType context) FORBIDDEN VUndefined);
     reflexivity).
Qed.

End GuardPaths.

Section OrgRolePaths.

Variable env : Env.
Variable session : UserSession.t.
Variable h : Headers.
Variable required : list jsstring.
Variable st : State.

Lemma checkOrgRole_no_active_org :
  hasActiveOrg session = false ->
  checkOrgRole env session h required st = (Normal false, st).
Proof.
  unfold hasActiveOrg, checkOrgRole.
  destruct (activeOrgIdOf session) as [[| c s] |]; intro H;
    try discriminate H; reflexivity.
Qed.

Lemma checkOrgRole_lookup_raises (e : Exception) :
  hasActiveOrg session = true ->
  lookupRaises (api env) h e ->
  exists lookup,
    isOrgLookup lookup = true /\
    checkOrgRole env session h required st
    = (Normal false,
       {| request := request st;
          trace := trace st ++ [lookup; ConsoleError e] |}).
Proof.
  unfold hasActiveOrg, checkOrgRole, lookupRaises.
  destruct (activeOrgIdOf session) as [[| c s] |]; intro H;
    try discriminate H.
  unfold getMemberRoleInOrganization, try_catch, bind, call.
  destruct (getActiveMemberRole (api env)) as [f |].
  - intro Hf. exists (CallGetActiveMemberRole h). split; [reflexivity |].
    cbn. rewrite Hf. cbn. now rewrite <- app_assoc.
  - destruct (getActiveMember (api env)) as [g |]; [| contradiction].
    intro Hg. exists (CallGetActiveMember h). split; [reflexivity |].
    cbn. rewrite Hg. cbn. now rewrite <- app_assoc.
Qed.

End OrgRolePaths.

Section RunFacts.

Variable env : Env.
Variable context : ExecutionContext.
Variable st : State.

(** Reading a run off the pair [canActivate] returns. *)
Lemma run_reads (out : Completion bool) (s : option UserSession.t)
  (new : list Event) :
  canActivate env context st = (out, afterRun st s new) ->
  outcome env context st = out /\
  finalState env context st = afterRun st s new /\
  events env context st = new.
Proof.
  intro Hrun. unfold events, outcome, finalState. rewrite Hrun. simpl.
  repeat split. apply skipn_own_length.
Qed.

Lemma raised_table (kind : AuthErrorType) :
  peerLoaded (peers env) (getType context) = true ->
  raised (AuthContextErrorMap (peers env) (getType context) kind VUndefined)
  = Throw (tableEntry (getType context) kind VUndefined).
Proof.
  intro Hpeer. now rewrite (errorMap_table _ _ _ _ Hpeer).
Qed.

(** The org-role step never throws, leaves the request alone, and adds at
    most a lookup and a log line to the trace. *)
Lemma checkOrgRole_extends (session : UserSession.t) (h : Headers)
  (required : list jsstring) (s0 : State) :
  exists (verdict : bool) (more : list Event),
    checkOrgRole env session h required s0
    = (Normal verdict,
       {| request := request s0; trace := trace s0 ++ more |}) /\
    existsb isGetSession more = false /\
    (hasActiveOrg session = false -> more = []).
Proof.
  unfold checkOrgRole, hasActiveOrg.
  destruct (activeOrgIdOf session) as [[| c org] |].
  - exists false, []. rewrite app_nil_r. destruct s0; repeat split.
  - unfold getMemberRoleInOrganization, try_catch, bind, call.
    destruct (getActiveMemberRole (api env)) as [f |].
    + cbn. destruct (f h) as [member | e]; cbn.
      * eexists _, [_]. repeat split. discriminate.
      * eexists _, [_; _]. rewrite <- app_assoc. repeat split. discriminate.
    + destruct (getActiveMember (api env)) as [g |].
      * cbn. destruct (g h) as [member | e]; cbn.
        -- eexists _, [_]. repeat split. discriminate.
        -- eexists _, [_; _]. rewrite <- app_assoc. repeat split. discriminate.
      * cbn. exists false, []. rewrite app_nil_r. destruct s0.
        repeat split.
  - exists false, []. rewrite app_nil_r. destruct s0; repeat split.
Qed.

(** Once the system-role step is passed, a run with required org roles
    reads the ORG_ROLES policy and attaches the session. *)
Lemma run_orgRoles_shape (session : UserSession.t) :
  sessionFetch env context st = Normal (Some session) ->
  isPublic (resolvePolicy context) = false ->
  systemRolesPass session (resolvePolicy context) = true ->
  requiredOrgRoles (resolvePolicy context) <> [] ->
  exists (out : Completion bool) (more : list Event),
    canActivate env context st
    = (out,
       afterRun st (Some session)
         ([CallGetSession (headersOf env st); ReadMetadata PUBLIC;
           ReadMetadata OPTIONAL; ReadMetadata ROLES; ReadMetadata ORG_ROLES]
          ++ more)) /\
    existsb isGetSession more = false /\
    (hasActiveOrg session = false ->
     more = [] /\
     out = raised (AuthContextErrorMap (peers env) (getType context)
                     FORBIDDEN VUndefined)).
Proof.
  intros Hs Hp Hr Ho.
  rewrite (run_orgRoles env context st session Hs Hp Hr Ho).
  destruct (checkOrgRole_extends session (headersOf env st)
              (requiredOrgRoles (resolvePolicy context))
              (afterRun st (Some session)
                 [CallGetSession (headersOf env st); ReadMetadata PUBLIC;
                  ReadMetadata OPTIONAL; ReadMetadata ROLES;
                  ReadMetadata ORG_ROLES]))
    as [verdict [more [Hcheck [Hnone Hquiet]]]].
  rewrite Hcheck. cbn [afterRun request trace] in *.
  destruct verdict.
  - eexists _, more. unfold afterRun. rewrite <- app_assoc.
    split; [reflexivity | split; [assumption |]].
    intro Hno. exfalso.
    rewrite (checkOrgRole_no_active_org env session _ _ _ Hno) in Hcheck.
    discriminate Hcheck.
  - eexists _, more. unfold afterRun. rewrite <- app_assoc.
    split; [reflexivity | split; [assumption |]].
    intro Hno. split; [now apply Hquiet | reflexivity].
Qed.

End RunFacts.

(* ================================================================== *)
(** ** The error mapper *)






(* ================================================================== *)
(** ** Public and anonymous invocations *)

(** C7, as stated, fails: the session is fetched before the PUBLIC
    annotation is read and nothing catches a failure of the fetch, so a
    provider that throws makes a request to a public handler fail. *)
Lemma C7_counterexample :
  isPublic (resolvePolicy Sample.publicRoute) = true /\
  outcome (Sample.envOf Sample2.brokenProvider) Sample.publicRoute
    Sample.incoming
  = Throw Sample2.sessionStoreDown.
Proof.
  split; reflexivity.
Qed.

(** C7 (amended): on a handler marked public, every request whose session
    fetch answers, with a session or with null, is allowed, whatever roles
    or org roles are declared, and the fetched session and its user (or
    null) are on the request view afterwards; when the fetch throws, the
    invocation ends with what it threw. *)
Theorem C7_public_always_allowed (env : Env) (context : ExecutionContext)
  (st : State) :
  isPublic (resolvePolicy context) = true ->
  match sessionFetch env context st with
  | Normal s =>
      outcome env context st = Normal true /\
      Request.session (request (finalState env context st)) = Some s /\
      Request.user (request (finalState env context st))
      = Some (option_map UserSession.user s)
  | Throw e => outcome env context st = Throw e
  end.
Proof.
  intro Hp.
  destruct (sessionFetch env context st) as [s | e] eqn:Hs.
  - destruct (run_reads env context st _ _ _ (run_public env context st s Hs Hp))
      as [Hout [Hfinal _]].
    rewrite Hout, Hfinal. repeat split.
  - unfold outcome. now rewrite (run_fetch_throws env context st e Hs).
Qed.

Lemma C7_public_always_allowed_witness :
  outcome (Sample.envOf (Sample.provider (Some Sample.plainUser) Sample.owner))
    Sample.publicRoute Sample.incoming = Normal true /\
  Request.session
    (request (finalState
                (Sample.envOf (Sample.provider (Some Sample.plainUser) Sample.owner))
                Sample.publicRoute Sample.incoming))
  = Some (Some Sample.plainUser) /\
  Request.user
    (request (finalState
                (Sample.envOf (Sample.provider (Some Sample.plainUser) Sample.owner))
                Sample.publicRoute Sample.incoming))
  = Some (option_map UserSession.user (Some Sample.plainUser)).
Proof.
  apply (C7_public_always_allowed
           (Sample.envOf (Sample.provider (Some Sample.plainUser) Sample.owner))
           Sample.publicRoute Sample.incoming).
  reflexivity.
Defined.

(** C3: when the provider has no session for the request and the handler
    is not public, an optional handler lets the request through with
    [session] (and [user]) null on the request view, and a handler that is
    not optional rejects it with the transport's UNAUTHORIZED error. *)
Theorem C3_no_session (env : Env) (context : ExecutionContext) (st : State) :
  sessionFetch env context st = Normal None ->
  isPublic (resolvePolicy context) = false ->
  peerLoaded (peers env) (getType context) = true ->
  (isOptional (resolvePolicy context) = true ->
   outcome env context st = Normal true /\
   Request.session (request (finalState env context st)) = Some None /\
   Request.user (request (finalState env context st)) = Some None)
  /\
  (isOptional (resolvePolicy context) = false ->
   outcome env context st
   = Throw (tableEntry (getType context) UNAUTHORIZED VUndefined)).
Proof.
  intros Hs Hp Hpeer. split; intro Ho.
  - destruct (run_reads env context st _ _ _
                (run_anonymous_optional env context st Hs Hp Ho))
      as [Hout [Hfinal _]].
    rewrite Hout, Hfinal. repeat split.
  - destruct (run_reads env context st _ _ _
                (run_anonymous_required env context st Hs Hp Ho))
      as [Hout _].
    rewrite Hout. now apply raised_table.
Qed.

Lemma C3_no_session_witness :
  outcome (Sample.envOf (Sample.provider None Sample.owner))
    Sample.protectedRoute Sample.incoming
  = Throw (JsError (str "UNAUTHORIZED")).
Proof.
  apply (C3_no_session (Sample.envOf (Sample.provider None Sample.owner))
           Sample.protectedRoute Sample.incoming); reflexivity.
Defined.

(** C8: on a handler marked optional (not public) that also requires
    roles, a request without a session is allowed, and the run ends right
    after the OPTIONAL policy is read: the ROLES policy is never looked
    at. *)
Theorem C8_optional_skips_roles (env : Env) (context : ExecutionContext)
  (st : State) :
  sessionFetch env context st = Normal None ->
  isPublic (resolvePolicy context) = false ->
  isOptional (resolvePolicy context) = true ->
  requiredRoles (resolvePolicy context) <> [] ->
  outcome env context st = Normal true /\
  events env context st
  = [CallGetSession (headersOf env st); ReadMetadata PUBLIC;
     ReadMetadata OPTIONAL].
Proof.
  intros Hs Hp Ho _.
  destruct (run_reads env context st _ _ _
              (run_anonymous_optional env context st Hs Hp Ho))
    as [Hout [_ Hev]].
  now split.
Qed.

Lemma C8_optional_skips_roles_witness :
  outcome (Sample.envOf (Sample.provider None Sample.owner))
    Sample.optionalAdminRoute Sample.incoming = Normal true /\
  events (Sample.envOf (Sample.provider None Sample.owner))
    Sample.optionalAdminRoute Sample.incoming
  = [CallGetSession Sample.bearer; ReadMetadata PUBLIC; ReadMetadata OPTIONAL].
Proof.
  apply (C8_optional_skips_roles
           (Sample.envOf (Sample.provider None Sample.owner))
           Sample.optionalAdminRoute Sample.incoming);
    try reflexivity.
  discriminate.
Defined.

(* ================================================================== *)
(** ** The session fetch *)





(* ================================================================== *)
(** ** Role and organization-role checks *)

Section RoleChecks.

Variable env : Env.
Variable context : ExecutionContext.
Variable st : State.
Variable session : UserSession.t.

Hypothesis fetched :
  sessionFetch env context st = Normal (Some session).
Hypothesis notPublic : isPublic (resolvePolicy context) = false.

Lemma systemRolesPass_iff :
  requiredRoles (resolvePolicy context) <> [] ->
  systemRolesPass session (resolvePolicy context)
  = checkUserRole session (requiredRoles (resolvePolicy context)).
Proof.
  unfold systemRolesPass.
  destruct (requiredRoles (resolvePolicy context)); [contradiction | reflexivity].
Qed.

(** A failed system-role step: FORBIDDEN, right after the ROLES read. *)
Lemma roles_fail_run :
  peerLoaded (peers env) (getType context) = true ->
  systemRolesPass session (resolvePolicy context) = false ->
  outcome env context st
  = Throw (tableEntry (getType context) FORBIDDEN VUndefined) /\
  events env context st
  = [CallGetSession (headersOf env st); ReadMetadata PUBLIC;
     ReadMetadata OPTIONAL; ReadMetadata ROLES].
Proof.
  intros Hpeer Hr.
  destruct (run_reads env context st _ _ _
              (run_roles_fail env context st session fetched notPublic Hr))
    as [Hout [_ Hev]].
  rewrite Hout, Hev. split; [now apply raised_table | reflexivity].
Qed.

(** A passed system-role step: the guard goes on to the ORG_ROLES policy,
    and allows when no org role is required. *)
Lemma roles_pass_run :
  systemRolesPass session (resolvePolicy context) = true ->
  In (ReadMetadata ORG_ROLES) (events env context st) /\
  (requiredOrgRoles (resolvePolicy context) = [] ->
   outcome env context st = Normal true).
Proof.
  intro Hr.
  destruct (requiredOrgRoles (resolvePolicy context)) as [| o os] eqn:Ho.
  - destruct (run_reads env context st _ _ _
                (run_no_orgRoles env context st session fetched notPublic Hr Ho))
      as [Hout [_ Hev]].
    rewrite Hev. split; [simpl; tauto | intros _; exact Hout].
  - assert (Hne : requiredOrgRoles (resolvePolicy context) <> [])
      by (rewrite Ho; discriminate).
    destruct (run_orgRoles_shape env context st session fetched notPublic Hr Hne)
      as [out [more [Hrun _]]].
    destruct (run_reads env context st _ _ _ Hrun) as [_ [_ Hev]].
    rewrite Hev. split; [simpl; tauto | intro H; discriminate H].
Qed.

End RoleChecks.

(** C1: with a session, on a handler that is not public and requires the
    non-empty role set R, the system-role check passes exactly when some
    role granted by the user's role value V is in R, where a list grants
    its members and a string grants what its comma-separated entries name
    once the whitespace around them is removed. When none is, the
    invocation is rejected with the transport's FORBIDDEN error; when one
    is, the guard goes on to the org-role policy and allows if no org role
    is required. An absent role, the empty string and the empty list
    match no required set. *)
Theorem C1_system_role_check (env : Env) (context : ExecutionContext)
  (st : State) (session : UserSession.t) :
  sessionFetch env context st = Normal (Some session) ->
  isPublic (resolvePolicy context) = false ->
  requiredRoles (resolvePolicy context) <> [] ->
  peerLoaded (peers env) (getType context) = true ->
  let R := requiredRoles (resolvePolicy context) in
  let V := User.role (UserSession.user session) in
  (checkUserRole session R = true <-> grantsAny V R) /\
  (~ grantsAny V R ->
   outcome env context st
   = Throw (tableEntry (getType context) FORBIDDEN VUndefined)) /\
  (grantsAny V R ->
   In (ReadMetadata ORG_ROLES) (events env context st) /\
   (requiredOrgRoles (resolvePolicy context) = [] ->
    outcome env context st = Normal true)) /\
  (forall required : list jsstring,
     matchesRequiredRole None required = false /\
     matchesRequiredRole (Some (RoleString [])) required = false /\
     matchesRequiredRole (Some (RoleArray [])) required = false).
Proof.
  intros Hs Hp HR Hpeer R V.
  assert (Hiff : checkUserRole session R = true <-> grantsAny V R)
    by apply matches_iff_grantsAny.
  split; [exact Hiff |]. split; [| split].
  - intro Hno.
    apply (roles_fail_run env context st session Hs Hp Hpeer).
    rewrite (systemRolesPass_iff context session HR).
    fold R. destruct (checkUserRole session R); [| reflexivity].
    exfalso. apply Hno, Hiff. reflexivity.
  - intro Hyes.
    apply (roles_pass_run env context st session Hs Hp).
    rewrite (systemRolesPass_iff context session HR).
    now apply Hiff.
  - intro required. repeat split.
Qed.

Lemma C1_system_role_check_witness :
  grantsAny (Some (RoleString (str "user, moderator")))
    [str "admin"; str "moderator"] /\
  outcome (Sample.envOf (Sample.provider (Some Sample.orgUser) Sample.owner))
    Sample.adminModeratorRoute Sample.incoming
  = Normal true.
Proof.
  assert (Hgrants :
    grantsAny (Some (RoleString (str "user, moderator")))
      [str "admin"; str "moderator"]).
  { exists (str "moderator"). split; [| simpl; tauto].
    split; [discriminate |].
    exists (str " moderator"). split.
    - split.
      + intro Hin. simpl in Hin.
        repeat (destruct Hin as [Hin | Hin]; [discriminate Hin |]).
        contradiction.
      + exists (str "user,"), []. split; [reflexivity |].
        split; [right; now exists (str "user") | now left].
    - split.
      + split.
        * intros c rest H. injection H as <- _. reflexivity.
        * intros front c H. apply (f_equal (@rev N)) in H.
          rewrite rev_app_distr in H. injection H as <- _. reflexivity.
      + exists (str " "), []. split; [reflexivity |].
        split; repeat constructor. }
  split; [exact Hgrants |].
  refine (proj2 (proj1 (proj2 (proj2 (C1_system_role_check
    (Sample.envOf (Sample.provider (Some Sample.orgUser) Sample.owner))
    Sample.adminModeratorRoute Sample.incoming Sample.orgUser
    eq_refl eq_refl _ eq_refl))) Hgrants) eq_refl).
  discriminate.
Defined.

(** C10: with a session, on a handler that requires both roles and org
    roles, a failed system-role check is rejected with FORBIDDEN and the
    run ends right after the ROLES read: the ORG_ROLES policy is not read
    and the provider is not asked for the member role. *)
Theorem C10_roles_before_org (env : Env) (context : ExecutionContext)
  (st : State) (session : UserSession.t) :
  sessionFetch env context st = Normal (Some session) ->
  isPublic (resolvePolicy context) = false ->
  requiredRoles (resolvePolicy context) <> [] ->
  requiredOrgRoles (resolvePolicy context) <> [] ->
  checkUserRole session (requiredRoles (resolvePolicy context)) = false ->
  peerLoaded (peers env) (getType context) = true ->
  outcome env context st
  = Throw (tableEntry (getType context) FORBIDDEN VUndefined) /\
  events env context st
  = [CallGetSession (headersOf env st); ReadMetadata PUBLIC;
     ReadMetadata OPTIONAL; ReadMetadata ROLES] /\
  existsb isOrgLookup (events env context st) = false.
Proof.
  intros Hs Hp HR _ Hfail Hpeer.
  assert (Hr : systemRolesPass session (resolvePolicy context) = false)
    by (rewrite (systemRolesPass_iff context session HR); exact Hfail).
  destruct (roles_fail_run env context st session Hs Hp Hpeer Hr) as [Hout Hev].
  rewrite Hout, Hev. repeat split.
Qed.

Lemma C10_roles_before_org_witness :
  outcome (Sample.envOf (Sample.provider (Some Sample.orgUser) Sample.owner))
    Sample.adminOwnerRoute Sample.incoming
  = Throw (GraphQLError (VString (str "Forbidden")) VUndefined) /\
  events (Sample.envOf (Sample.provider (Some Sample.orgUser) Sample.owner))
    Sample.adminOwnerRoute Sample.incoming
  = [CallGetSession Sample.bearer; ReadMetadata PUBLIC;
     ReadMetadata OPTIONAL; ReadMetadata ROLES] /\
  existsb isOrgLookup
    (events (Sample.envOf (Sample.provider (Some Sample.orgUser) Sample.owner))
       Sample.adminOwnerRoute Sample.incoming) = false.
Proof.
  apply (C10_roles_before_org
           (Sample.envOf (Sample.provider (Some Sample.orgUser) Sample.owner))
           Sample.adminOwnerRoute Sample.incoming Sample.orgUser);
    try reflexivity; discriminate.
Defined.

(** C5, as stated, fails: it holds only of handlers that are not public.
    On a public handler whose class requires org roles the guard returns
    before any role policy is read, so a session without an active
    organization is let through. *)
Lemma C5_counterexample :
  requiredOrgRoles (resolvePolicy Sample.publicRoute) <> [] /\
  sessionFetch
    (Sample.envOf (Sample.provider (Some Sample.plainUser) Sample.owner))
    Sample.publicRoute Sample.incoming
  = Normal (Some Sample.plainUser) /\
  activeOrgIdOf Sample.plainUser = None /\
  outcome (Sample.envOf (Sample.provider (Some Sample.plainUser) Sample.owner))
    Sample.publicRoute Sample.incoming
  = Normal true.
Proof.
  repeat split. discriminate.
Qed.

(** C5 (amended): with a session that has no active organization, on a
    handler that is not public and requires org roles, the invocation is
    rejected with FORBIDDEN and the run makes no member-role call to the
    provider. *)
Theorem C5_no_active_org (env : Env) (context : ExecutionContext)
  (st : State) (session : UserSession.t) :
  sessionFetch env context st = Normal (Some session) ->
  isPublic (resolvePolicy context) = false ->
  requiredOrgRoles (resolvePolicy context) <> [] ->
  activeOrgIdOf session = None ->
  peerLoaded (peers env) (getType context) = true ->
  outcome env context st
  = Throw (tableEntry (getType context) FORBIDDEN VUndefined) /\
  existsb isOrgLookup (events env context st) = false.
Proof.
  intros Hs Hp Ho Hnone Hpeer.
  destruct (systemRolesPass session (resolvePolicy context)) eqn:Hr.
  - assert (Hno : hasActiveOrg session = false)
      by (unfold hasActiveOrg; now rewrite Hnone).
    destruct (run_orgRoles_shape env context st session Hs Hp Hr Ho)
      as [out [more [Hrun [_ Hquiet]]]].
    destruct (Hquiet Hno) as [Hmore Hout]. subst more out.
    destruct (run_reads env context st _ _ _ Hrun) as [Hout [_ Hev]].
    rewrite Hout, Hev. split; [now apply raised_table | reflexivity].
  - destruct (roles_fail_run env context st session Hs Hp Hpeer Hr)
      as [Hout Hev].
    rewrite Hout, Hev. split; reflexivity.
Qed.

Lemma C5_no_active_org_witness :
  outcome (Sample.envOf (Sample.provider (Some Sample.plainUser) Sample.owner))
    Sample.orgOwnerRoute Sample.incoming
  = Throw (WsException (VString (str "FORBIDDEN"))) /\
  existsb isOrgLookup
    (events (Sample.envOf (Sample.provider (Some Sample.plainUser) Sample.owner))
       Sample.orgOwnerRoute Sample.incoming) = false.
Proof.
  apply (C5_no_active_org
           (Sample.envOf (Sample.provider (Some Sample.plainUser) Sample.owner))
           Sample.orgOwnerRoute Sample.incoming Sample.plainUser);
    try reflexivity; discriminate.
Defined.

(** C2: with a session that has an active organization, on a handler that
    is not public and requires org roles, a member-role lookup that raises
    ends in the transport's FORBIDDEN error, never in the exception
    raised; when the run gets as far as the lookup, the exception is
    written to the console and the run adds nothing after that. *)
Theorem C2_lookup_failure_denies (env : Env) (context : ExecutionContext)
  (st : State) (session : UserSession.t) (org : jsstring) (e : Exception) :
  sessionFetch env context st = Normal (Some session) ->
  isPublic (resolvePolicy context) = false ->
  requiredOrgRoles (resolvePolicy context) <> [] ->
  activeOrgIdOf session = Some org ->
  lookupRaises (api env) (headersOf env st) e ->
  peerLoaded (peers env) (getType context) = true ->
  outcome env context st
  = Throw (tableEntry (getType context) FORBIDDEN VUndefined) /\
  (systemRolesPass session (resolvePolicy context) = true ->
   org <> [] ->
   exists lookup : Event,
     isOrgLookup lookup = true /\
     events env context st
     = [CallGetSession (headersOf env st); ReadMetadata PUBLIC;
        ReadMetadata OPTIONAL; ReadMetadata ROLES; ReadMetadata ORG_ROLES;
        lookup; ConsoleError e]).
Proof.
  intros Hs Hp Ho Horg Hraise Hpeer.
  destruct (systemRolesPass session (resolvePolicy context)) eqn:Hr.
  - pose proof (run_orgRoles env context st session Hs Hp Hr Ho) as Hrun.
    destruct org as [| c org].
    + assert (Hno : hasActiveOrg session = false)
        by (unfold hasActiveOrg; now rewrite Horg).
      rewrite (checkOrgRole_no_active_org env session _ _ _ Hno) in Hrun.
      destruct (run_reads env context st _ _ _ Hrun) as [Hout _].
      rewrite Hout. split; [now apply raised_table |].
      intros _ Hne. now contradiction Hne.
    + assert (Hyes : hasActiveOrg session = true)
        by (unfold hasActiveOrg; now rewrite Horg).
      destruct (checkOrgRole_lookup_raises env session (headersOf env st)
                  (requiredOrgRoles (resolvePolicy context))
                  (afterRun st (Some session)
                     [CallGetSession (headersOf env st); ReadMetadata PUBLIC;
                      ReadMetadata OPTIONAL; ReadMetadata ROLES;
                      ReadMetadata ORG_ROLES])
                  e Hyes Hraise)
        as [lookup [Hlookup Hcheck]].
      rewrite Hcheck in Hrun. cbn [afterRun request trace] in Hrun.
      rewrite <- app_assoc in Hrun.
      change (canActivate env context st
              = (raised (AuthContextErrorMap (peers env) (getType context)
                           FORBIDDEN VUndefined),
                 afterRun st (Some session)
                   [CallGetSession (headersOf env st); ReadMetadata PUBLIC;
                    ReadMetadata OPTIONAL; ReadMetadata ROLES;
                    ReadMetadata ORG_ROLES; lookup; ConsoleError e]))
        in Hrun.
      destruct (run_reads env context st _ _ _ Hrun) as [Hout [_ Hev]].
      rewrite Hout. split; [now apply raised_table |].
      intros _ _. exists lookup. now split.
  - destruct (roles_fail_run env context st session Hs Hp Hpeer Hr)
      as [Hout _].
    split; [exact Hout | intro H; discriminate H].
Qed.

Lemma C2_lookup_failure_denies_witness :
  outcome
    (Sample.envOf (Sample.provider (Some Sample.orgUser)
                     (Throw Sample.databaseDown)))
    Sample.orgOwnerRoute Sample.incoming
  = Throw (WsException (VString (str "FORBIDDEN"))).
Proof.
  apply (C2_lookup_failure_denies
           (Sample.envOf (Sample.provider (Some Sample.orgUser)
                            (Throw Sample.databaseDown)))
           Sample.orgOwnerRoute Sample.incoming Sample.orgUser
           (str "org_1") Sample.databaseDown);
    try reflexivity; discriminate.
Defined.

(* ================================================================== *)
(** ** The forms of a role value *)

Example trim_strips_both_ends :
  trim (str "  admin ") = str "admin" /\ trim (str "   ") = [] /\
  trim (str "org admin") = str "org admin".
Proof. repeat split. Qed.

Example split_comma_pieces :
  split_comma (str "user, admin,,x") = [str "user"; str " admin"; []; str "x"] /\
  split_comma [] = [[]].
Proof. repeat split. Qed.

Example matches_moderator :
  matchesRequiredRole (Some (RoleString (str "moderator")))
    [str "admin"; str "moderator"] = true /\
  matchesRequiredRole (Some (RoleString (str "user")))
    [str "admin"; str "moderator"] = false /\
  matchesRequiredRole (Some (RoleString (str "user, admin")))
    [str "admin"] = true /\
  matchesRequiredRole (Some (RoleArray [str "user"; str "admin"]))
    [str "admin"] = true.
Proof. repeat split. Qed.

(** Names that hold no comma and no outer whitespace write themselves. *)
Lemma writtenAs_refl (names : list jsstring) :
  Forall (fun r => comma_free r = true /\ trim r = r) names ->
  writtenAs names names.
Proof.
  induction 1 as [| r rs Hr _ IH]; constructor; assumption.
Qed.

(** List members are matched as they are: a member with outer whitespace
    or with a comma in it is neither trimmed nor split, so a list can hold
    names that no comma-separated string denotes. *)
Example list_members_verbatim :
  ~ sameVerdict [str " admin"] [str "admin"] /\
  ~ sameVerdict [str "a,b"] [str "a,b"].
Proof.
  split; intro H; vm_compute in H; discriminate H.
Qed.

(** C6, as stated, fails on the empty role name: the list holding it
    matches a required set that contains it, while the comma-separated
    string that writes it is the empty string, which is falsy and matches
    nothing. *)
Lemma C6_counterexample :
  join_comma [[]] = [] /\
  matchesRequiredRole (Some (RoleArray [[]])) [[]] = true /\
  matchesRequiredRole (Some (RoleString (join_comma [[]]))) [[]] = false /\
  ~ sameVerdict [[]] [[]].
Proof.
  repeat split. intro H. vm_compute in H. discriminate H.
Qed.

(** C6 (amended): let the role names S (no comma, no whitespace at either
    end) be written as comma-separated entries E, each entry being its
    name with optional whitespace around it. Then the list S and the
    string joining E get the same verdict against every required-role
    set, except when S is the single empty name and the required set
    contains the empty name. *)
Theorem C6_list_and_comma_string_agree
  (names entries required : list jsstring) :
  writtenAs entries names ->
  (names = [[]] -> ~ In [] required) ->
  matchesRequiredRole (Some (RoleArray names)) required
  = matchesRequiredRole (Some (RoleString (join_comma entries))) required.
Proof.
  intros Hwritten Hnames.
  pose proof (writtenAs_comma_free _ _ Hwritten) as Hfree.
  destruct (join_comma entries) as [| c s] eqn:Hjoin.
  - destruct (join_comma_nil _ Hjoin) as [Hnil | Hone]; subst entries.
    + inversion Hwritten. reflexivity.
    + inversion Hwritten as [| e r es rs [_ Htrim] Hrest]; subst.
      inversion Hrest; subst.
      change (trim []) with (@nil N) in *.
      simpl. rewrite Bool.orb_false_r.
      destruct (includes required []) eqn:Hinc; [| reflexivity].
      exfalso. apply (Hnames eq_refl). now apply includes_In.
  - rewrite matches_string by discriminate.
    rewrite <- Hjoin, split_join.
    + simpl. symmetry. now apply writtenAs_existsb.
    + intro Hnil. subst entries. discriminate Hjoin.
    + exact Hfree.
Qed.

Lemma C6_list_and_comma_string_agree_witness :
  matchesRequiredRole (Some (RoleArray [str "user"; str "admin"])) [str "admin"]
  = matchesRequiredRole
      (Some (RoleString (join_comma [str "user"; str " admin "]))) [str "admin"].
Proof.
  apply (C6_list_and_comma_string_agree
           [str "user"; str "admin"] [str "user"; str " admin "] [str "admin"]).
  - repeat constructor.
  - discriminate.
Defined.


(* ================================================================== *)
(** ** The guard in closed form: decision and trace *)

Section ClosedForm.

Variable env : Env.
Variable context : ExecutionContext.
Variable st : State.

(** The org-role step, case by case. *)
Lemma checkOrgRole_run (session : UserSession.t) (h : Headers)
  (required : list jsstring) (s0 : State) :
  hasActiveOrg session = true ->
  checkOrgRole env session h required s0
  = match orgLookup (api env) h with
    | None => (Normal false, s0)
    | Some (ev, Normal member) =>
        (Normal (matchesRequiredRole (roleOf member) required),
         {| request := request s0; trace := trace s0 ++ [ev] |})
    | Some (ev, Throw e) =>
        (Normal false,
         {| request := request s0; trace := trace s0 ++ [ev; ConsoleError e] |})
    end.
Proof.
  unfold hasActiveOrg, checkOrgRole, orgLookup.
  destruct (activeOrgIdOf session) as [[| c org] |]; intro H;
    try discriminate H.
  unfold getMemberRoleInOrganization, try_catch, bind, call.
  destruct (getActiveMemberRole (api env)) as [f |].
  - cbn. destruct (f h) as [member | e]; cbn;
      [reflexivity | now rewrite <- app_assoc].
  - destruct (getActiveMember (api env)) as [g |].
    + cbn. destruct (g h) as [member | e]; cbn;
        [reflexivity | now rewrite <- app_assoc].
    + cbn. now destruct s0.
Qed.

(** A run whose session fetch gave [s], as one equation: the decision
    and the state it leaves. *)
Lemma run_closed_form (s : option UserSession.t) :
  sessionFetch env context st = Normal s ->
  canActivate env context st
  = (if allows env context st s then Normal true
     else raised (AuthContextErrorMap (peers env) (getType context)
                    (denial s) VUndefined),
     afterRun st s (expectedEvents env context st s)).
Proof.
  intro Hs. unfold allows, expectedEvents.
  destruct (isPublic (resolvePolicy context)) eqn:Hp.
  { exact (run_public env context st s Hs Hp). }
  destruct s as [session |]; cbn [orb andb app denial].
  - destruct (systemRolesPass session (resolvePolicy context)) eqn:Hr;
      cbn [orb andb app denial].
    + unfold orgRolesPass, orgStepEvents.
      destruct (requiredOrgRoles (resolvePolicy context)) as [| o os] eqn:Ho.
      * exact (run_no_orgRoles env context st session Hs Hp Hr Ho).
      * assert (Hne : requiredOrgRoles (resolvePolicy context) <> [])
          by (rewrite Ho; discriminate).
        rewrite (run_orgRoles env context st session Hs Hp Hr Hne), Ho.
        destruct (hasActiveOrg session) eqn:Hact.
        -- rewrite (checkOrgRole_run session _ _ _ Hact).
           destruct (orgLookup (api env) (headersOf env st))
             as [[ev [member | e]] |]; cbn [andb app].
           ++ destruct (matchesRequiredRole (roleOf member) (o :: os));
                unfold afterRun; cbn [request trace];
                now rewrite <- app_assoc.
           ++ unfold afterRun; cbn [request trace]. now rewrite <- app_assoc.
           ++ reflexivity.
        -- now rewrite (checkOrgRole_no_active_org env session _ _ _ Hact).
    + exact (run_roles_fail env context st session Hs Hp Hr).
  - destruct (isOptional (resolvePolicy context)) eqn:Ho.
    + exact (run_anonymous_optional env context st Hs Hp Ho).
    + exact (run_anonymous_required env context st Hs Hp Ho).
Qed.

Lemma outcome_closed_form (s : option UserSession.t) :
  sessionFetch env context st = Normal s ->
  outcome env context st
  = if allows env context st s then Normal true
    else raised (AuthContextErrorMap (peers env) (getType context)
                   (denial s) VUndefined).
Proof.
  intro Hs. unfold outcome. now rewrite (run_closed_form s Hs).
Qed.

Lemma events_closed_form (s : option UserSession.t) :
  sessionFetch env context st = Normal s ->
  events env context st = expectedEvents env context st s.
Proof.
  intro Hs.
  now destruct (run_reads env context st _ _ _ (run_closed_form s Hs))
    as [_ [_ Hev]].
Qed.

Lemma finalState_closed_form (s : option UserSession.t) :
  sessionFetch env context st = Normal s ->
  finalState env context st = afterRun st s (expectedEvents env context st s).
Proof.
  intro Hs. unfold finalState. now rewrite (run_closed_form s Hs).
Qed.

Lemma raised_never_normal (made : Completion Exception) :
  exists e, raised made = Throw e.
Proof.
  destruct made as [e | e]; exists e; reflexivity.
Qed.

End ClosedForm.

(* ================================================================== *)
(** ** What every run of the guard does and never does *)

(** X1: once the session fetch has answered, the guard allows exactly
    when the handler is public, or there is no session and the handler is
    optional, or there is a session that passes the system-role step and
    the org-role step; a refused request gets the UNAUTHORIZED error of
    the transport when there is no session and the FORBIDDEN one when
    there is. *)
Theorem X1_guard_decision (env : Env) (context : ExecutionContext)
  (st : State) (s : option UserSession.t) :
  sessionFetch env context st = Normal s ->
  outcome env context st
  = if allows env context st s then Normal true
    else raised (AuthContextErrorMap (peers env) (getType context)
                   (denial s) VUndefined).
Proof.
  apply outcome_closed_form.
Qed.

Lemma X1_guard_decision_witness :
  outcome (Sample.envOf (Sample.provider (Some Sample.orgUser) Sample.owner))
    Sample.orgOwnerRoute Sample.incoming
  = Normal true.
Proof.
  apply (X1_guard_decision
           (Sample.envOf (Sample.provider (Some Sample.orgUser) Sample.owner))
           Sample.orgOwnerRoute Sample.incoming (Some Sample.orgUser)).
  reflexivity.
Defined.

(** X2: the guard never answers false: a run ends in true or in a thrown
    value. *)
Theorem X2_never_false (env : Env) (context : ExecutionContext) (st : State) :
  outcome env context st = Normal true \/
  exists e, outcome env context st = Throw e.
Proof.
  destruct (sessionFetch env context st) as [s | e] eqn:Hs.
  - rewrite (outcome_closed_form env context st s Hs).
    destruct (allows env context st s); [now left | right].
    apply raised_never_normal.
  - right. exists e. unfold outcome.
    now rewrite (run_fetch_throws env context st e Hs).
Qed.

(** X3: when the session fetch answers and the transport's package is
    installed, a run can only end in true, in the UNAUTHORIZED entry of
    the table (no session) or in the FORBIDDEN entry (a session): nothing
    a member-role endpoint throws reaches the caller. *)
Theorem X3_only_table_errors (env : Env) (context : ExecutionContext)
  (st : State) (s : option UserSession.t) :
  sessionFetch env context st = Normal s ->
  peerLoaded (peers env) (getType context) = true ->
  outcome env context st = Normal true \/
  outcome env context st
  = Throw (tableEntry (getType context) (denial s) VUndefined).
Proof.
  intros Hs Hpeer. rewrite (outcome_closed_form env context st s Hs).
  destruct (allows env context st s); [now left | right].
  now apply raised_table.
Qed.

Lemma X3_only_table_errors_witness :
  outcome
    (Sample.envOf (Sample.provider (Some Sample.orgUser)
                     (Throw Sample.databaseDown)))
    Sample.orgOwnerRoute Sample.incoming = Normal true \/
  outcome
    (Sample.envOf (Sample.provider (Some Sample.orgUser)
                     (Throw Sample.databaseDown)))
    Sample.orgOwnerRoute Sample.incoming
  = Throw (WsException (VString (str "FORBIDDEN"))).
Proof.
  apply (X3_only_table_errors
           (Sample.envOf (Sample.provider (Some Sample.orgUser)
                            (Throw Sample.databaseDown)))
           Sample.orgOwnerRoute Sample.incoming (Some Sample.orgUser));
    reflexivity.
Defined.

Section TraceFacts.

Variable env : Env.
Variable context : ExecutionContext.
Variable st : State.

(** The events of any run: those of the closed form, or the lone session
    fetch when that call throws, or nothing when the view is not
    obtained. *)
Lemma events_cases :
  (exists s, sessionFetch env context st = Normal s /\
             events env context st = expectedEvents env context st s) \/
  (exists e, sessionFetch env context st = Throw e /\
             (events env context st = [CallGetSession (headersOf env st)] \/
              events env context st = [])).
Proof.
  destruct (sessionFetch env context st) as [s | e] eqn:Hs.
  - left. exists s. split; [reflexivity |].
    now apply events_closed_form.
  - right. exists e. split; [reflexivity |].
    unfold events, finalState.
    rewrite (run_fetch_throws env context st e Hs). cbn [snd trace].
    rewrite skipn_own_length.
    destruct (viewObtained env context st); [now left | now right].
Qed.

Lemma orgLookup_event (h : Headers) (ev : Event) (c : Completion MemberResult) :
  orgLookup (api env) h = Some (ev, c) ->
  isOrgLookup ev = true /\ isConsoleError ev = false /\
  callHeaders ev = Some h /\ policyReads [ev] = [] /\
  (getActiveMemberRole (api env) <> None -> isGetActiveMember ev = false).
Proof.
  unfold orgLookup.
  destruct (getActiveMemberRole (api env)) as [f |].
  - intro H. injection H as <- _. repeat split.
  - destruct (getActiveMember (api env)) as [g |]; [| discriminate].
    intro H. injection H as <- _. repeat split. intro Hne. now contradiction Hne.
Qed.

End TraceFacts.

Section TraceShapes.

Variable env : Env.
Variable context : ExecutionContext.
Variable st : State.

Lemma orgStep_cases (h : Headers) (session : UserSession.t) (p : Policy) :
  orgStepEvents env h session p = [] \/
  (exists ev member,
     orgLookup (api env) h = Some (ev, Normal member) /\
     orgStepEvents env h session p = [ev]) \/
  (exists ev e,
     orgLookup (api env) h = Some (ev, Throw e) /\
     orgStepEvents env h session p = [ev; ConsoleError e]).
Proof.
  unfold orgStepEvents.
  destruct (requiredOrgRoles p); [now left |].
  destruct (hasActiveOrg session); [| now left].
  destruct (orgLookup (api env) h) as [[ev [member | e]] |].
  - right. left. now exists ev, member.
  - right. right. now exists ev, e.
  - now left.
Qed.

(** Every run adds one of these lists of events to the trace. *)
Lemma events_shapes :
  let h := headersOf env st in
  events env context st = [] \/
  exists tail,
    events env context st = CallGetSession h :: tail /\
    (tail = [] \/
     tail = [ReadMetadata PUBLIC] \/
     tail = [ReadMetadata PUBLIC; ReadMetadata OPTIONAL] \/
     tail = [ReadMetadata PUBLIC; ReadMetadata OPTIONAL; ReadMetadata ROLES] \/
     exists org,
       tail = [ReadMetadata PUBLIC; ReadMetadata OPTIONAL; ReadMetadata ROLES;
               ReadMetadata ORG_ROLES] ++ org /\
       (org = [] \/
        (exists ev member,
           orgLookup (api env) h = Some (ev, Normal member) /\ org = [ev]) \/
        (exists ev e,
           orgLookup (api env) h = Some (ev, Throw e) /\
           org = [ev; ConsoleError e]))).
Proof.
  intro h.
  destruct events_cases with (env := env) (context := context) (st := st)
    as [[s [_ Hev]] | [e [_ [Hev | Hev]]]]; rewrite Hev;
    [right | right | now left].
  - unfold expectedEvents. fold h. cbn [app].
    destruct (isPublic (resolvePolicy context)).
    { eexists. split; [reflexivity | tauto]. }
    destruct s as [session |].
    + destruct (systemRolesPass session (resolvePolicy context)).
      * eexists. split; [reflexivity |].
        right. right. right. right.
        exists (orgStepEvents env h session (resolvePolicy context)).
        split; [reflexivity | apply orgStep_cases].
      * eexists. split; [reflexivity | tauto].
    + eexists. split; [reflexivity | tauto].
  - eexists. split; [reflexivity | tauto].
Qed.

End TraceShapes.

(** Splits a goal about the events of a run into the shapes a run can
    have. *)
Ltac by_shapes_of env ctx st :=
  let tail := fresh "tail" in
  let Hev := fresh "Hev" in
  let Hshape := fresh "Hshape" in
  let org := fresh "org" in
  let Horg := fresh "Horg" in
  let ev := fresh "ev" in
  let Hlook := fresh "Hlook" in
  destruct (events_shapes env ctx st) as [Hev | [tail [Hev Hshape]]];
  rewrite Hev;
  [ |
    destruct Hshape as
      [-> | [-> | [-> | [-> | [org [-> Horg]]]]]];
    [ | | | |
      destruct Horg as
        [-> | [[ev [? [Hlook ->]]] | [ev [? [Hlook ->]]]]] ] ].

Ltac by_shapes :=
  match goal with
  | |- context [events ?env ?ctx ?st] => by_shapes_of env ctx st
  end.

(** X4: a run asks the provider for the member role at most once, and
    when the provider has [getActiveMemberRole] it never calls
    [getActiveMember]: there is no fallback on an empty answer or on a
    failure. *)
Theorem X4_one_lookup_preferred_endpoint (env : Env)
  (context : ExecutionContext) (st : State) :
  (List.length (filter isOrgLookup (events env context st)) <= 1)%nat /\
  (getActiveMemberRole (api env) <> None ->
   existsb isGetActiveMember (events env context st) = false).
Proof.
  by_shapes; cbn; try (split; [lia | reflexivity]).
  - destruct (orgLookup_event env _ _ _ Hlook) as [Hl [_ [_ [_ Hpref]]]].
    rewrite Hl. split; [simpl; lia |].
    intro Hne. now rewrite (Hpref Hne).
  - destruct (orgLookup_event env _ _ _ Hlook) as [Hl [_ [_ [_ Hpref]]]].
    rewrite Hl. split; [simpl; lia |].
    intro Hne. now rewrite (Hpref Hne).
Qed.

Lemma X4_one_lookup_preferred_endpoint_witness :
  existsb isGetActiveMember
    (events (Sample.envOf (Sample2.twoEndpoints (Some Sample.orgUser)))
       Sample.orgOwnerRoute Sample.incoming) = false.
Proof.
  apply (X4_one_lookup_preferred_endpoint
           (Sample.envOf (Sample2.twoEndpoints (Some Sample.orgUser)))
           Sample.orgOwnerRoute Sample.incoming).
  discriminate.
Defined.

(** X7: every call a run makes to the provider, the session fetch and
    the member-role lookup alike, carries the same headers: those built
    from the request's own. *)
Theorem X7_same_headers (env : Env) (context : ExecutionContext) (st : State)
  (ev : Event) (h : Headers) :
  In ev (events env context st) ->
  callHeaders ev = Some h ->
  h = headersOf env st.
Proof.
  by_shapes; intros Hin Hh; simpl in Hin.
  all: try (repeat (destruct Hin as [<- | Hin];
                    [simpl in Hh; congruence |]);
            contradiction).
  all: destruct (orgLookup_event env _ _ _ Hlook) as [_ [_ [Hc _]]];
    repeat (destruct Hin as [<- | Hin]; [simpl in Hh; congruence |]);
    contradiction.
Qed.

Lemma X7_same_headers_witness :
  Sample.bearer
  = headersOf (Sample.envOf (Sample.provider (Some Sample.orgUser) Sample.owner))
      Sample.incoming.
Proof.
  apply (X7_same_headers
           (Sample.envOf (Sample.provider (Some Sample.orgUser) Sample.owner))
           Sample.orgOwnerRoute Sample.incoming
           (CallGetActiveMemberRole Sample.bearer) Sample.bearer).
  - vm_compute. tauto.
  - reflexivity.
Defined.

(** X10: the policy is read lazily and in a fixed order: the keys a run
    reads are an initial segment of PUBLIC, OPTIONAL, ROLES, ORG_ROLES, so
    no key is read twice and none is read once the decision is made. *)
Theorem X10_policy_reads_in_order (env : Env) (context : ExecutionContext)
  (st : State) :
  isPrefixOf (policyReads (events env context st))
    [PUBLIC; OPTIONAL; ROLES; ORG_ROLES] = true.
Proof.
  by_shapes; try reflexivity.
  - destruct (orgLookup_event env _ _ _ Hlook) as [_ [_ [_ [Hp _]]]].
    cbn. cbn in Hp. destruct ev; try discriminate Hp; reflexivity.
  - destruct (orgLookup_event env _ _ _ Hlook) as [_ [_ [_ [Hp _]]]].
    cbn. cbn in Hp. destruct ev; try discriminate Hp; reflexivity.
Qed.

(** X11: the guard writes to the console only when the member-role
    endpoint it called threw, and what it writes is the thrown value;
    every other refusal is silent. *)
Theorem X11_logs_only_lookup_failures (env : Env) (context : ExecutionContext)
  (st : State) (e : Exception) :
  In (ConsoleError e) (events env context st) ->
  exists ev,
    orgLookup (api env) (headersOf env st) = Some (ev, Throw e).
Proof.
  by_shapes; intro Hin; simpl in Hin.
  all: try (repeat (destruct Hin as [Hin | Hin]; [discriminate Hin |]);
            contradiction).
  - destruct (orgLookup_event env _ _ _ Hlook) as [_ [Hc _]].
    repeat (destruct Hin as [Hin | Hin]; [try discriminate Hin |]);
      try contradiction.
    subst ev. discriminate Hc.
  - destruct (orgLookup_event env _ _ _ Hlook) as [_ [Hc _]].
    repeat (destruct Hin as [Hin | Hin]; [try discriminate Hin |]);
      try contradiction.
    + subst ev. discriminate Hc.
    + injection Hin as <-. now exists ev.
Qed.

Lemma X11_logs_only_lookup_failures_witness :
  exists ev,
    orgLookup
      (api (Sample.envOf (Sample.provider (Some Sample.orgUser)
                            (Throw Sample.databaseDown))))
      (headersOf
         (Sample.envOf (Sample.provider (Some Sample.orgUser)
                          (Throw Sample.databaseDown)))
         Sample.incoming)
    = Some (ev, Throw Sample.databaseDown).
Proof.
  apply (X11_logs_only_lookup_failures
           (Sample.envOf (Sample.provider (Some Sample.orgUser)
                            (Throw Sample.databaseDown)))
           Sample.orgOwnerRoute Sample.incoming Sample.databaseDown).
  vm_compute. tauto.
Defined.

(* ================================================================== *)
(** ** Edges of the role steps *)

(** X13: the provider is asked for the member role only on the one path
    that needs it: a session with a non-empty active organization id, on a
    handler that is not public and requires org roles, after the
    system-role step has passed. *)
Theorem X13_lookup_only_when_needed (env : Env) (context : ExecutionContext)
  (st : State) :
  existsb isOrgLookup (events env context st) = true ->
  exists session,
    getSession (api env) (headersOf env st) = Normal (Some session) /\
    isPublic (resolvePolicy context) = false /\
    systemRolesPass session (resolvePolicy context) = true /\
    requiredOrgRoles (resolvePolicy context) <> [] /\
    hasActiveOrg session = true.
Proof.
  destruct (events_cases env context st)
    as [[s [Hs Hev]] | [e [_ [Hev | Hev]]]];
    rewrite Hev;
    [| intro H; cbn in H; discriminate H
     | intro H; cbn in H; discriminate H].
  unfold expectedEvents, orgStepEvents. cbv zeta.
  destruct (isPublic (resolvePolicy context)) eqn:Hp;
    [intro H; cbn in H; discriminate H |].
  destruct s as [session |]; [| intro H; cbn in H; discriminate H].
  destruct (systemRolesPass session (resolvePolicy context)) eqn:Hr;
    [| intro H; cbn in H; discriminate H].
  destruct (requiredOrgRoles (resolvePolicy context)) eqn:Ho;
    [intro H; cbn in H; discriminate H |].
  destruct (hasActiveOrg session) eqn:Hact;
    [| intro H; cbn in H; discriminate H].
  intros _. exists session.
  split; [exact (proj2 (sessionFetch_answers env context st _ Hs)) |].
  split; [reflexivity |]. split; [exact Hr |].
  split; [discriminate | exact Hact].
Qed.

Lemma X13_lookup_only_when_needed_witness :
  exists session,
    getSession
      (api (Sample.envOf (Sample.provider (Some Sample.orgUser) Sample.owner)))
      (headersOf
         (Sample.envOf (Sample.provider (Some Sample.orgUser) Sample.owner))
         Sample.incoming)
    = Normal (Some session) /\
    isPublic (resolvePolicy Sample.orgOwnerRoute) = false /\
    systemRolesPass session (resolvePolicy Sample.orgOwnerRoute) = true /\
    requiredOrgRoles (resolvePolicy Sample.orgOwnerRoute) <> [] /\
    hasActiveOrg session = true.
Proof.
  apply (X13_lookup_only_when_needed
           (Sample.envOf (Sample.provider (Some Sample.orgUser) Sample.owner))
           Sample.orgOwnerRoute Sample.incoming).
  reflexivity.
Defined.

(** X5: when the provider has neither member-role endpoint (no
    organization plugin), a handler that requires org roles refuses every
    session with FORBIDDEN, without calling the provider again and without
    logging. *)
Theorem X5_no_org_plugin_denies (env : Env) (context : ExecutionContext)
  (st : State) (session : UserSession.t) :
  sessionFetch env context st = Normal (Some session) ->
  getActiveMemberRole (api env) = None ->
  getActiveMember (api env) = None ->
  isPublic (resolvePolicy context) = false ->
  requiredOrgRoles (resolvePolicy context) <> [] ->
  peerLoaded (peers env) (getType context) = true ->
  outcome env context st
  = Throw (tableEntry (getType context) FORBIDDEN VUndefined) /\
  existsb isOrgLookup (events env context st) = false /\
  existsb isConsoleError (events env context st) = false.
Proof.
  intros Hs Hrole Hmember Hp Ho Hpeer.
  assert (Hlook : orgLookup (api env) (headersOf env st) = None)
    by (unfold orgLookup; now rewrite Hrole, Hmember).
  rewrite (outcome_closed_form env context st _ Hs),
          (events_closed_form env context st _ Hs).
  unfold allows, expectedEvents, orgRolesPass, orgStepEvents.
  rewrite Hp, Hlook.
  destruct (requiredOrgRoles (resolvePolicy context)); [contradiction |].
  cbn [orb app denial].
  rewrite Bool.andb_false_r, Bool.andb_false_r.
  split; [now apply raised_table |].
  destruct (systemRolesPass session (resolvePolicy context)),
           (hasActiveOrg session); split; reflexivity.
Qed.

Lemma X5_no_org_plugin_denies_witness :
  outcome (Sample.envOf (Sample2.pluginless (Some Sample.orgUser)))
    Sample.orgOwnerRoute Sample.incoming
  = Throw (WsException (VString (str "FORBIDDEN"))).
Proof.
  apply (X5_no_org_plugin_denies
           (Sample.envOf (Sample2.pluginless (Some Sample.orgUser)))
           Sample.orgOwnerRoute Sample.incoming Sample.orgUser);
    try reflexivity; discriminate.
Defined.

(** X6: an active organization id that is the empty string counts as no
    active organization: the handler refuses with FORBIDDEN and the
    provider is not asked for the member role. *)
Theorem X6_blank_org_id_is_absent (env : Env) (context : ExecutionContext)
  (st : State) (session : UserSession.t) :
  sessionFetch env context st = Normal (Some session) ->
  activeOrgIdOf session = Some [] ->
  isPublic (resolvePolicy context) = false ->
  requiredOrgRoles (resolvePolicy context) <> [] ->
  peerLoaded (peers env) (getType context) = true ->
  outcome env context st
  = Throw (tableEntry (getType context) FORBIDDEN VUndefined) /\
  existsb isOrgLookup (events env context st) = false.
Proof.
  intros Hs Hblank Hp Ho Hpeer.
  assert (Hact : hasActiveOrg session = false)
    by (unfold hasActiveOrg; now rewrite Hblank).
  rewrite (outcome_closed_form env context st _ Hs),
          (events_closed_form env context st _ Hs).
  unfold allows, expectedEvents, orgRolesPass, orgStepEvents.
  rewrite Hp, Hact.
  destruct (requiredOrgRoles (resolvePolicy context)); [contradiction |].
  cbn [orb andb app denial]. rewrite Bool.andb_false_r.
  split; [now apply raised_table |].
  destruct (systemRolesPass session (resolvePolicy context)); reflexivity.
Qed.

Lemma X6_blank_org_id_is_absent_witness :
  outcome
    (Sample.envOf (Sample.provider (Some Sample2.blankOrgUser) Sample.owner))
    Sample.orgOwnerRoute Sample.incoming
  = Throw (WsException (VString (str "FORBIDDEN"))) /\
  existsb isOrgLookup
    (events
       (Sample.envOf (Sample.provider (Some Sample2.blankOrgUser) Sample.owner))
       Sample.orgOwnerRoute Sample.incoming) = false.
Proof.
  apply (X6_blank_org_id_is_absent
           (Sample.envOf (Sample.provider (Some Sample2.blankOrgUser) Sample.owner))
           Sample.orgOwnerRoute Sample.incoming Sample2.blankOrgUser);
    try reflexivity; discriminate.
Defined.

(** X8: a run writes nothing on the request but [session] and [user]:
    [headers] and [handshake] are as before, and when the session fetch
    throws the request is left exactly as it was. *)
Theorem X8_request_otherwise_untouched (env : Env)
  (context : ExecutionContext) (st : State) :
  Request.headers (request (finalState env context st))
  = Request.headers (request st) /\
  Request.handshake (request (finalState env context st))
  = Request.handshake (request st) /\
  match sessionFetch env context st with
  | Normal s => request (finalState env context st) = attach s (request st)
  | Throw _ => request (finalState env context st) = request st
  end.
Proof.
  destruct (sessionFetch env context st) as [s | e] eqn:Hs.
  - rewrite (finalState_closed_form env context st s Hs). repeat split.
  - unfold finalState.
    rewrite (run_fetch_throws env context st e Hs). repeat split.
Qed.

(** X9: an empty role list on the handler overrides the roles the class
    asks for: with [@Roles([])] on the handler no system role is required,
    so any session is let through when no org role is required either. *)
Theorem X9_empty_handler_roles_lift_class_roles (env : Env)
  (context : ExecutionContext) (st : State) (session : UserSession.t) :
  sessionFetch env context st = Normal (Some session) ->
  meta_ROLES (getHandler context) = Some [] ->
  isPublic (resolvePolicy context) = false ->
  requiredOrgRoles (resolvePolicy context) = [] ->
  outcome env context st = Normal true.
Proof.
  intros Hs Hroles Hp Ho.
  rewrite (outcome_closed_form env context st _ Hs).
  unfold allows, systemRolesPass, orgRolesPass. rewrite Hp, Ho.
  assert (Hnone : requiredRoles (resolvePolicy context) = [])
    by (simpl; now rewrite Hroles).
  now rewrite Hnone.
Qed.

Lemma X9_empty_handler_roles_lift_class_roles_witness :
  outcome (Sample.envOf (Sample.provider (Some Sample.plainUser) Sample.owner))
    Sample2.rolesLiftedRoute Sample.incoming
  = Normal true.
Proof.
  apply (X9_empty_handler_roles_lift_class_roles
           (Sample.envOf (Sample.provider (Some Sample.plainUser) Sample.owner))
           Sample2.rolesLiftedRoute Sample.incoming Sample.plainUser);
    reflexivity.
Defined.

(** X12: on a handler that requires org roles only, the role on the user
    plays no part: two providers that differ only in the role they report
    on the user get the same outcome. *)
Theorem X12_org_route_ignores_user_role (env env' : Env)
  (context : ExecutionContext) (st : State) (session : UserSession.t)
  (role' : option RoleValue) :
  sessionFetch env context st = Normal (Some session) ->
  sessionFetch env' context st
  = Normal (Some (withRole session role')) ->
  getActiveMemberRole (api env') = getActiveMemberRole (api env) ->
  getActiveMember (api env') = getActiveMember (api env) ->
  fromNodeHeaders env' = fromNodeHeaders env ->
  peers env' = peers env ->
  requiredRoles (resolvePolicy context) = [] ->
  outcome env' context st = outcome env context st.
Proof.
  intros Hs Hs' Hrole Hmember Hheaders Hpeers Hnone.
  rewrite (outcome_closed_form env context st _ Hs),
          (outcome_closed_form env' context st _ Hs').
  unfold allows, systemRolesPass, orgRolesPass, orgLookup, headersOf, hasActiveOrg.
  rewrite Hnone, Hrole, Hmember, Hheaders, Hpeers. reflexivity.
Qed.

Lemma X12_org_route_ignores_user_role_witness :
  outcome
    (Sample.envOf
       (Sample.provider
          (Some (withRole Sample.orgUser (Some (RoleArray [str "admin"]))))
          Sample.owner))
    Sample.orgOwnerRoute Sample.incoming
  = outcome (Sample.envOf (Sample.provider (Some Sample.orgUser) Sample.owner))
      Sample.orgOwnerRoute Sample.incoming.
Proof.
  apply (X12_org_route_ignores_user_role
           (Sample.envOf (Sample.provider (Some Sample.orgUser) Sample.owner))
           (Sample.envOf
              (Sample.provider
                 (Some (withRole Sample.orgUser (Some (RoleArray [str "admin"]))))
                 Sample.owner))
           Sample.orgOwnerRoute Sample.incoming Sample.orgUser
           (Some (RoleArray [str "admin"])));
    reflexivity.
Defined.

(* ================================================================== *)
(** ** The role matcher and the error table, further *)

(** X14: the verdict of the matcher only grows with the required roles:
    a role value that matches a set matches every set that contains it, so
    order and repetition of required roles do not matter; and nothing
    matches the empty set. *)
Theorem X14_matcher_monotone (role : option RoleValue)
  (required required' : list jsstring) :
  (forall r, In r required -> In r required') ->
  (matchesRequiredRole role required = true ->
   matchesRequiredRole role required' = true) /\
  matchesRequiredRole role [] = false.
Proof.
  intro Hsub. split.
  - intro H. apply matches_iff_intersects in H.
    destruct H as [r [Hgranted Hrequired]].
    apply matches_iff_intersects. exists r. split; [assumption | auto].
  - destruct (matchesRequiredRole role []) eqn:H; [| reflexivity].
    apply matches_iff_intersects in H. destruct H as [r [_ []]].
Qed.

Lemma X14_matcher_monotone_witness :
  matchesRequiredRole (Some (RoleString (str "user, moderator")))
    [str "admin"; str "moderator"; str "admin"] = true.
Proof.
  refine (proj1 (X14_matcher_monotone
                   (Some (RoleString (str "user, moderator")))
                   [str "moderator"] [str "admin"; str "moderator"; str "admin"]
                   _) eq_refl).
  intros r [<- | []]. simpl. tauto.
Defined.

(** X15: a role string is read piece by piece. A string without a comma
    is one role, its trimmed self; a string [a,b] matches when the trimmed
    [a] is required or the rest [b] matches, where an empty rest stands
    for the empty role name: a trailing comma adds the empty name and
    nothing else. *)
Theorem X15_role_string_by_pieces (a b : jsstring) (required : list jsstring) :
  comma_free a = true ->
  (a <> [] ->
   matchesRequiredRole (Some (RoleString a)) required
   = includes required (trim a)) /\
  matchesRequiredRole (Some (RoleString (a ++ COMMA :: b))) required
  = includes required (trim a) ||
    match b with
    | [] => includes required []
    | _ => matchesRequiredRole (Some (RoleString b)) required
    end.
Proof.
  intro Hfree. split.
  - intro Hne. rewrite matches_string by assumption.
    rewrite (split_comma_single a Hfree). simpl. apply Bool.orb_false_r.
  - rewrite matches_string by (destruct a; discriminate).
    rewrite (split_comma_app a b Hfree). cbn [existsb]. f_equal.
    destruct b as [| c b'].
    + cbn [split_comma existsb]. apply Bool.orb_false_r.
    + symmetry. apply matches_string. discriminate.
Qed.

Lemma X15_role_string_by_pieces_witness :
  matchesRequiredRole (Some (RoleString (str " admin" ++ COMMA :: [])))
    [str "admin"]
  = includes [str "admin"] (trim (str " admin")) || includes [str "admin"] [].
Proof.
  apply (X15_role_string_by_pieces (str " admin") [] [str "admin"]).
  reflexivity.
Defined.

(** X16: the http and rpc rows never fail, whatever is installed; the
    graphql and ws rows, for every kind and detail, throw a plain error
    telling which package to install when theirs is missing. *)
Theorem X16_missing_peer (p : Peers) (kind : AuthErrorType) (detail : JsValue) :
  (exists e, AuthContextErrorMap p http kind detail = Normal e) /\
  (exists e, AuthContextErrorMap p rpc kind detail = Normal e) /\
  (has_graphql p = false ->
   AuthContextErrorMap p graphql kind detail
   = Throw (JsError (str
       "graphql is required for GraphQL support. Please install it: npm install graphql"))) /\
  (has_websockets p = false ->
   AuthContextErrorMap p ws kind detail
   = Throw (JsError (str
       "@nestjs/websockets is required for WebSocket support. Please install it: npm install @nestjs/websockets @nestjs/platform-socket.io"))).
Proof.
  repeat split.
  - destruct kind; eexists; reflexivity.
  - eexists; reflexivity.
  - intro H. unfold AuthContextErrorMap, getGraphQLError. now rewrite H.
  - intro H. unfold AuthContextErrorMap, getWsException. now rewrite H.
Qed.

Lemma X16_missing_peer_witness :
  AuthContextErrorMap {| has_graphql := true; has_websockets := false |}
    ws UNAUTHORIZED VUndefined
  = Throw (JsError (str
      "@nestjs/websockets is required for WebSocket support. Please install it: npm install @nestjs/websockets @nestjs/platform-socket.io")).
Proof.
  apply (X16_missing_peer {| has_graphql := true; has_websockets := false |}
           UNAUTHORIZED VUndefined).
  reflexivity.
Defined.

(** X17: without a detail the two kinds give different errors on every
    transport, and on http and rpc they differ whatever the detail; on ws
    a detail that is neither undefined nor null replaces the code, so both
    kinds give the same exception, and so does a string detail on
    graphql. *)
Theorem X17_kinds_told_apart (p : Peers) (ctxType : ContextType)
  (detail : JsValue) :
  (peerLoaded p ctxType = true ->
   AuthContextErrorMap p ctxType UNAUTHORIZED VUndefined
   <> AuthContextErrorMap p ctxType FORBIDDEN VUndefined) /\
  AuthContextErrorMap p http UNAUTHORIZED detail
  <> AuthContextErrorMap p http FORBIDDEN detail /\
  AuthContextErrorMap p rpc UNAUTHORIZED detail
  <> AuthContextErrorMap p rpc FORBIDDEN detail /\
  (isNullish detail = false ->
   AuthContextErrorMap p ws UNAUTHORIZED detail
   = AuthContextErrorMap p ws FORBIDDEN detail) /\
  (typeof detail = TyString ->
   AuthContextErrorMap p graphql UNAUTHORIZED detail
   = AuthContextErrorMap p graphql FORBIDDEN detail).
Proof.
  repeat split.
  - intro Hpeer. rewrite !(errorMap_table _ _ _ _ Hpeer).
    destruct ctxType; vm_compute; intro H; discriminate H.
  - cbn. intro H. discriminate H.
  - vm_compute. intro H. discriminate H.
  - intros Hgiven. unfold AuthContextErrorMap.
    destruct (getWsException p); [| reflexivity].
    destruct detail; try reflexivity; discriminate Hgiven.
  - intro Hstr. unfold AuthContextErrorMap.
    destruct (getGraphQLError p); [| reflexivity].
    now rewrite Hstr.
Qed.

Lemma X17_kinds_told_apart_witness :
  AuthContextErrorMap {| has_graphql := true; has_websockets := true |}
    ws UNAUTHORIZED (VString (str "denied"))
  = AuthContextErrorMap {| has_graphql := true; has_websockets := true |}
      ws FORBIDDEN (VString (str "denied")).
Proof.
  apply (X17_kinds_told_apart {| has_graphql := true; has_websockets := true |}
           ws (VString (str "denied"))).
  reflexivity.
Defined.

(* ================================================================== *)
(** ** The body-parsing middleware *)

Section MiddlewareFacts.

Import Middleware.

Lemma startsWith_app (prefix suffix : jsstring) :
  startsWith (prefix ++ suffix) prefix = true.
Proof.
  induction prefix as [| p prefix IH]; simpl.
  - now destruct suffix.
  - now rewrite N.eqb_refl, IH.
Qed.

Lemma startsWith_prefix (s prefix : jsstring) :
  startsWith s prefix = true -> exists suffix, s = prefix ++ suffix.
Proof.
  revert s. induction prefix as [| p prefix IH]; intros s H.
  - now exists s.
  - destruct s as [| c s]; [simpl in H; discriminate H |].
    simpl in H. apply andb_true_iff in H. destruct H as [Hc Hrest].
    apply N.eqb_eq in Hc. subst c.
    destruct (IH s Hrest) as [suffix ->]. now exists suffix.
Qed.

End MiddlewareFacts.

(** X18: a request whose [baseUrl] begins with the base path (the given
    one, or [/api/auth] when none is given) goes straight to [next()]: no
    parser runs and the request is handed on as it came. The test is on
    characters, not on path segments. *)
Theorem X18_auth_routes_skip_parsing (options : Middleware.Options)
  (express : Middleware.Express) (req : Middleware.Req) (suffix : jsstring) :
  Middleware.baseUrl req = Middleware.basePathOf options ++ suffix ->
  Middleware.SkipBodyParsingMiddleware options express req
  = (req, [Middleware.Next None]).
Proof.
  intro Hurl. unfold Middleware.SkipBodyParsingMiddleware.
  now rewrite Hurl, startsWith_app.
Qed.

Lemma X18_auth_routes_skip_parsing_witness :
  Middleware.SkipBodyParsingMiddleware Sample3.defaults Sample3.quietExpress
    Sample3.authorsRequest
  = (Sample3.authorsRequest, [Middleware.Next None]).
Proof.
  apply (X18_auth_routes_skip_parsing Sample3.defaults Sample3.quietExpress
           Sample3.authorsRequest (str "ors")).
  reflexivity.
Defined.

(** X19: on every request the middleware calls [next] exactly once, as
    the last thing it does. Off the base path the JSON parser always runs
    first, with the raw-body callback exactly when the option is on; the
    urlencoded parser runs only after the JSON parser reported no error,
    and an error of the JSON parser is what [next] gets. *)
Theorem X19_parsers_then_next (options : Middleware.Options)
  (express : Middleware.Express) (req : Middleware.Req) :
  let evs := snd (Middleware.SkipBodyParsingMiddleware options express req) in
  let parsed :=
    Middleware.json express (Middleware.jsonParserOptions options) req in
  (exists parsers err,
     evs = parsers ++ [Middleware.Next err] /\
     existsb Middleware.isNext parsers = false) /\
  (Middleware.startsWith (Middleware.baseUrl req)
     (Middleware.basePathOf options) = false ->
   hd_error evs
   = Some (Middleware.JsonParser (Middleware.rawBodyEnabled options)) /\
   (In Middleware.UrlencodedParser evs <-> snd parsed = None) /\
   (forall err, snd parsed = Some err ->
      In (Middleware.Next (Some err)) evs)).
Proof.
  intros evs parsed. subst evs parsed.
  unfold Middleware.SkipBodyParsingMiddleware.
  assert (Hflag :
    Middleware.hasVerify (Middleware.jsonParserOptions options)
    = Middleware.rawBodyEnabled options)
    by (unfold Middleware.jsonParserOptions;
        now destruct (Middleware.rawBodyEnabled options)).
  rewrite Hflag.
  destruct (Middleware.startsWith (Middleware.baseUrl req)
              (Middleware.basePathOf options)).
  - split; [| intro H; discriminate H].
    exists [], None. now split.
  - destruct (Middleware.json express (Middleware.jsonParserOptions options) req)
      as [req' [err |]].
    + split.
      * exists [Middleware.JsonParser (Middleware.rawBodyEnabled options)],
          (Some err). now split.
      * intros _. simpl. repeat split.
        -- intros [H | [H | []]]; discriminate H.
        -- intro H; discriminate H.
        -- intros err' H. injection H as <-. tauto.
    + destruct (Middleware.urlencoded express req') as [req'' err].
      split.
      * exists [Middleware.JsonParser (Middleware.rawBodyEnabled options);
                Middleware.UrlencodedParser], err. now split.
      * intros _. simpl. repeat split.
        -- tauto.
        -- intros err' H; discriminate H.
Qed.

Lemma X19_parsers_then_next_witness :
  hd_error
    (snd (Middleware.SkipBodyParsingMiddleware
            {| Middleware.basePath := Some (str "/auth");
               Middleware.enableRawBodyParser := Some true |}
            Sample3.quietExpress Sample3.authorsRequest))
  = Some (Middleware.JsonParser true).
Proof.
  apply (X19_parsers_then_next
           {| Middleware.basePath := Some (str "/auth");
              Middleware.enableRawBodyParser := Some true |}
           Sample3.quietExpress Sample3.authorsRequest).
  reflexivity.
Defined.

(* ================================================================== *)
(** ** Module wiring *)

(** X20: [configure] fails in one case only: origins given as a function
    while CORS is not disabled. It then throws before anything is
    registered; in every other case it completes. *)
Theorem X20_configure_rejects_function_origins (basePath : jsstring)
  (options : AuthModule.Options) :
  match AuthModule.trustedOrigins options,
        truthy (AuthModule.disableTrustedOriginsCors options) with
  | Some AuthModule.OriginFunction, false =>
      AuthModule.configure basePath options
      = (Throw (JsError (str
           "Function-based trustedOrigins not supported in NestJS. Use string array or disable CORS with disableTrustedOriginsCors: true.")),
         [])
  | _, _ => fst (AuthModule.configure basePath options) = Normal tt
  end.
Proof.
  unfold AuthModule.configure, AuthModule.corsStep.
  destruct (AuthModule.trustedOrigins options) as [[origins |] |];
    destruct (truthy (AuthModule.disableTrustedOriginsCors options));
    reflexivity.
Qed.

(** X21: the body-parsing middleware that [configure] registers never
    parses a request to the routes the auth handler is mounted on: for a
    [baseUrl] that begins with the module's base path it calls [next()]
    and nothing else. *)
Theorem X21_auth_routes_keep_their_body (basePath : jsstring)
  (options : AuthModule.Options) (mw : Middleware.Options)
  (express : Middleware.Express) (req : Middleware.Req) (suffix : jsstring) :
  In mw (AuthModule.bodyParsers (snd (AuthModule.configure basePath options))) ->
  Middleware.baseUrl req = basePath ++ suffix ->
  In (AuthModule.ApplyAuthHandler basePath)
    (snd (AuthModule.configure basePath options)) /\
  Middleware.SkipBodyParsingMiddleware mw express req
  = (req, [Middleware.Next None]).
Proof.
  unfold AuthModule.configure, AuthModule.corsStep.
  destruct (AuthModule.trustedOrigins options) as [[origins |] |];
    destruct (truthy (AuthModule.disableTrustedOriginsCors options));
    destruct (truthy (AuthModule.disableBodyParser options));
    cbn; intros Hin Hurl; try contradiction;
    destruct Hin as [<- | []];
    (split; [tauto |]);
    unfold Middleware.SkipBodyParsingMiddleware, Middleware.basePathOf;
    cbn [Middleware.basePath]; now rewrite Hurl, startsWith_app.
Qed.

Lemma X21_auth_routes_keep_their_body_witness :
  Middleware.SkipBodyParsingMiddleware
    {| Middleware.basePath := Some (str "/api/auth");
       Middleware.enableRawBodyParser := Some true |}
    Sample3.quietExpress Sample3.authorsRequest
  = (Sample3.authorsRequest, [Middleware.Next None]).
Proof.
  apply (X21_auth_routes_keep_their_body (str "/api/auth") Sample3.corsOptions
           {| Middleware.basePath := Some (str "/api/auth");
              Middleware.enableRawBodyParser := Some true |}
           Sample3.quietExpress Sample3.authorsRequest (str "ors")).
  - vm_compute. tauto.
  - reflexivity.
Defined.

(* ================================================================== *)
(** ** Hooks *)

Section HookFacts.

Import AuthModule.

Lemma hasHookProviders_exists (discovered : list Provider) :
  negb (Nat.eqb (List.length (filter hasHookMetadata discovered)) 0)
  = existsb hasHookMetadata discovered.
Proof.
  induction discovered as [| p ps IH]; simpl.
  - reflexivity.
  - destruct (hasHookMetadata p); [reflexivity | exact IH].
Qed.

(** One method, seen from one slot. *)
Lemma setupHooks_slot (hookType : HookType) (m : Method) (this : N)
  (b a : option HookFn) :
  exists b' a',
    setupHooks m this (HooksObject b a) = HooksObject b' a' /\
    hookOf hookType (HooksObject b' a')
    = installAll
        match metaOf hookType m with
        | Some hookPath => [(hookPath, fn m, this)]
        | None => []
        end
        (hookOf hookType (HooksObject b a)).
Proof.
  unfold setupHooks, setupHook.
  destruct hookType; simpl;
    destruct (beforeMeta m) as [bp |], (afterMeta m) as [ap |]; simpl;
    eexists _, _; split; reflexivity.
Qed.

Lemma installAll_app (regs regs' : list Registration) (slot : option HookFn) :
  installAll (regs ++ regs') slot = installAll regs' (installAll regs slot).
Proof.
  unfold installAll. apply fold_left_app.
Qed.

(** The methods of one provider. *)
Lemma setupHooks_methods (hookType : HookType) (this : N) (ms : list Method)
  (b a : option HookFn) :
  exists b' a',
    fold_left (fun cfg method => setupHooks method this cfg) ms (HooksObject b a)
    = HooksObject b' a' /\
    hookOf hookType (HooksObject b' a')
    = installAll
        (flat_map
           (fun m =>
              match metaOf hookType m with
              | Some hookPath => [(hookPath, fn m, this)]
              | None => []
              end)
           ms)
        (hookOf hookType (HooksObject b a)).
Proof.
  revert b a. induction ms as [| m ms IH]; intros b a.
  - exists b, a. split; reflexivity.
  - destruct (setupHooks_slot hookType m this b a) as [b1 [a1 [Hstep Hslot]]].
    destruct (IH b1 a1) as [b' [a' [Hfold Hrest]]].
    exists b', a'. split.
    + cbn [fold_left]. now rewrite Hstep.
    + rewrite Hrest, Hslot. cbn [flat_map]. now rewrite installAll_app.
Qed.

(** All providers. *)
Lemma setupHooks_providers (hookType : HookType) (ps : list Provider)
  (b a : option HookFn) :
  exists b' a',
    fold_left
      (fun cfg provider =>
         fold_left
           (fun cfg method => setupHooks method (instance provider) cfg)
           (methods provider) cfg)
      ps (HooksObject b a)
    = HooksObject b' a' /\
    hookOf hookType (HooksObject b' a')
    = installAll
        (flat_map
           (fun provider =>
              flat_map
                (fun m =>
                   match metaOf hookType m with
                   | Some hookPath => [(hookPath, fn m, instance provider)]
                   | None => []
                   end)
                (methods provider))
           ps)
        (hookOf hookType (HooksObject b a)).
Proof.
  revert b a. induction ps as [| p ps IH]; intros b a.
  - exists b, a. split; reflexivity.
  - destruct (setupHooks_methods hookType (instance p) (methods p) b a)
      as [b1 [a1 [Hstep Hslot]]].
    destruct (IH b1 a1) as [b' [a' [Hfold Hrest]]].
    exists b', a'. split.
    + cbn [fold_left]. now rewrite Hstep.
    + rewrite Hrest, Hslot. cbn [flat_map]. now rewrite installAll_app.
Qed.

(** Running an installed closure is one more step after running what it
    wraps. *)
Lemma runSlot_installed (w : World) (slot : option HookFn)
  (hookPath : option jsstring) (f : FnId) (this : N) (ctx : Ctx)
  (done : list Call) :
  runSlot w (Some (Installed slot hookPath f this)) ctx done
  = runInOrder w [(hookPath, f, this)] ctx (runSlot w slot ctx done).
Proof.
  destruct slot as [original |]; simpl.
  - destruct (runHook w original ctx done) as [[v | e] done']; reflexivity.
  - reflexivity.
Qed.

Lemma runInOrder_app (w : World) (regs regs' : list Registration) (ctx : Ctx)
  (sofar : Completion JsValue * list Call) :
  runInOrder w (regs ++ regs') ctx sofar
  = runInOrder w regs' ctx (runInOrder w regs ctx sofar).
Proof.
  revert sofar. induction regs as [| [[hp f] this] regs IH]; intro sofar.
  - reflexivity.
  - simpl. apply IH.
Qed.

Lemma runSlot_installAll (w : World) (regs : list Registration)
  (slot : option HookFn) (ctx : Ctx) (done : list Call) :
  runSlot w (installAll regs slot) ctx done
  = runInOrder w regs ctx (runSlot w slot ctx done).
Proof.
  revert slot. induction regs as [| [[hp f] this] regs IH]; intro slot.
  - reflexivity.
  - change (installAll ((hp, f, this) :: regs) slot)
      with (installAll regs (Some (Installed slot hp f this))).
    rewrite IH, runSlot_installed. reflexivity.
Qed.

(** After at least one registered method, a hook that completes resolves
    to undefined. *)
Lemma runInOrder_value (w : World) (regs : list Registration) (ctx : Ctx)
  (sofar : Completion JsValue * list Call) (v : JsValue) :
  regs <> [] ->
  fst (runInOrder w regs ctx sofar) = Normal v -> v = VUndefined.
Proof.
  intro Hne.
  destruct (exists_last Hne) as [front [[[hp f] this] ->]].
  rewrite runInOrder_app. simpl.
  destruct (runInOrder w front ctx sofar) as [[v0 | e] done]; simpl.
  - destruct (skipsPath hp ctx); simpl.
    + intro H. now injection H as <-.
    + destruct (w f ctx); simpl; intro H;
        [now injection H as <- | discriminate H].
  - intro H. discriminate H.
Qed.

End HookFacts.

(** X22: [onModuleInit] throws exactly when a provider carries the hook
    marker while no hooks are configured (the option is undefined); with
    the option undefined and no such provider it changes nothing, with the
    option null it completes and installs nothing whatever the providers
    are, and with a hooks object it always completes. *)
Theorem X22_onModuleInit_errors (discovered : list AuthModule.Provider) :
  AuthModule.onModuleInit discovered AuthModule.HooksUndefined
  = (if existsb AuthModule.hasHookMetadata discovered then
       Throw (JsError (str
         "Detected @Hook providers but Better Auth 'hooks' are not configured. Add 'hooks: {}' to your betterAuth(...) options."))
     else Normal AuthModule.HooksUndefined) /\
  AuthModule.onModuleInit discovered AuthModule.HooksNull
  = Normal AuthModule.HooksNull /\
  forall before after,
    exists before' after',
      AuthModule.onModuleInit discovered (AuthModule.HooksObject before after)
      = Normal (AuthModule.HooksObject before' after').
Proof.
  unfold AuthModule.onModuleInit. repeat split.
  - cbn [AuthModule.hooksConfigured negb]. rewrite Bool.andb_true_r.
    rewrite hasHookProviders_exists.
    now destruct (existsb AuthModule.hasHookMetadata discovered).
  - cbn [AuthModule.hooksConfigured negb]. rewrite Bool.andb_false_r.
    induction (filter AuthModule.hasHookMetadata discovered) as [| p ps IH];
      [reflexivity |].
    simpl.
    assert (Hnull :
      fold_left
        (fun cfg method =>
           AuthModule.setupHooks method (AuthModule.instance p) cfg)
        (AuthModule.methods p) AuthModule.HooksNull = AuthModule.HooksNull)
      by (induction (AuthModule.methods p); [reflexivity | assumption]).
    now rewrite Hnull.
  - intros before after.
    cbn [AuthModule.hooksConfigured negb]. rewrite Bool.andb_false_r.
    destruct (setupHooks_providers AuthModule.BeforeHook
                (filter AuthModule.hasHookMetadata discovered) before after)
      as [b' [a' [Hfold _]]].
    exists b', a'. cbn. now rewrite Hfold.
Qed.

(** X23: after [onModuleInit] each hook slot runs what it ran before and
    then, in the order the providers and their methods were met, every
    method registered for that kind of hook, each only when its path is
    unset, empty or the path of the request; a failure stops the chain.
    Methods of providers without the hook marker, and methods registered
    for the other kind, are not part of it. *)
Theorem X23_hooks_run_in_registration_order
  (discovered : list AuthModule.Provider)
  (before after : option AuthModule.HookFn) :
  exists before' after',
    AuthModule.onModuleInit discovered (AuthModule.HooksObject before after)
    = Normal (AuthModule.HooksObject before' after') /\
    forall (w : AuthModule.World) (ctx : AuthModule.Ctx)
           (done : list AuthModule.Call),
      AuthModule.runSlot w before' ctx done
      = AuthModule.runInOrder w
          (AuthModule.registrations AuthModule.BeforeHook discovered) ctx
          (AuthModule.runSlot w before ctx done) /\
      AuthModule.runSlot w after' ctx done
      = AuthModule.runInOrder w
          (AuthModule.registrations AuthModule.AfterHook discovered) ctx
          (AuthModule.runSlot w after ctx done).
Proof.
  unfold AuthModule.onModuleInit.
  cbn [AuthModule.hooksConfigured negb]. rewrite Bool.andb_false_r.
  cbn [negb].
  destruct (setupHooks_providers AuthModule.BeforeHook
              (filter AuthModule.hasHookMetadata discovered) before after)
    as [b' [a' [Hfold Hbefore]]].
  destruct (setupHooks_providers AuthModule.AfterHook
              (filter AuthModule.hasHookMetadata discovered) before after)
    as [b2 [a2 [Hfold2 Hafter]]].
  rewrite Hfold in Hfold2. injection Hfold2 as <- <-.
  exists b', a'. split; [now rewrite Hfold |].
  intros w ctx done. simpl in Hbefore, Hafter.
  unfold AuthModule.registrations. split.
  - rewrite Hbefore. apply runSlot_installAll.
  - rewrite Hafter. apply runSlot_installAll.
Qed.

(** X24: once a method is registered for a kind of hook, the hook of that
    kind resolves to undefined whenever it completes: the value the
    configured hook or a provider method returned is dropped. *)
Theorem X24_installed_hooks_drop_values
  (discovered : list AuthModule.Provider)
  (before after before' after' : option AuthModule.HookFn)
  (hookType : AuthModule.HookType)
  (w : AuthModule.World) (ctx : AuthModule.Ctx) (done : list AuthModule.Call)
  (v : JsValue) :
  AuthModule.onModuleInit discovered (AuthModule.HooksObject before after)
  = Normal (AuthModule.HooksObject before' after') ->
  AuthModule.registrations hookType discovered <> [] ->
  fst (AuthModule.runSlot w
         (AuthModule.hookOf hookType (AuthModule.HooksObject before' after'))
         ctx done) = Normal v ->
  v = VUndefined.
Proof.
  intros Hinit Hregs.
  unfold AuthModule.onModuleInit in Hinit.
  cbn [AuthModule.hooksConfigured negb] in Hinit.
  rewrite Bool.andb_false_r in Hinit. cbn [negb] in Hinit.
  destruct (setupHooks_providers hookType
              (filter AuthModule.hasHookMetadata discovered) before after)
    as [b1 [a1 [Hfold Hslot]]].
  rewrite Hfold in Hinit. injection Hinit as <- <-.
  rewrite Hslot, runSlot_installAll.
  now apply runInOrder_value.
Qed.

Lemma X24_installed_hooks_drop_values_witness :
  fst (AuthModule.runSlot
         (fun _ _ => Normal (VObject [(str "context", VObject [])]))
         (AuthModule.hookOf AuthModule.BeforeHook
            (AuthModule.HooksObject
               (Some (AuthModule.Installed (Some (AuthModule.Configured 2))
                        (Some (str "/sign-in/email")) 1 7))
               None))
         {| AuthModule.path := str "/sign-out" |} [])
  = Normal VUndefined /\
  VUndefined = VUndefined.
Proof.
  split; [reflexivity |].
  apply (X24_installed_hooks_drop_values [Sample3.signInProvider]
           (Some (AuthModule.Configured 2)) None
           (Some (AuthModule.Installed (Some (AuthModule.Configured 2))
                    (Some (str "/sign-in/email")) 1 7))
           None AuthModule.BeforeHook
           (fun _ _ => Normal (VObject [(str "context", VObject [])]))
           {| AuthModule.path := str "/sign-out" |} [] VUndefined).
  - reflexivity.
  - discriminate.
  - reflexivity.
Defined.

(* ================================================================== *)
(** ** The two signatures of forRoot *)

Section ObjectFacts.

Import AuthModule.

Lemma hasProp_setProp (name : jsstring) (v : JsValue)
  (props : list (jsstring * JsValue)) :
  hasProp name (setProp name v props) = true.
Proof.
  unfold setProp. destruct (hasProp name props) eqn:Hhas.
  - unfold hasProp in *. induction props as [| [k w] props IH];
      [discriminate Hhas |].
    simpl in *. destruct (JsString.eqb k name) eqn:Hk; simpl.
    + now rewrite Hk.
    + rewrite Hk. simpl. apply IH. exact Hhas.
  - unfold hasProp. rewrite existsb_app. simpl.
    assert (Hrefl : JsString.eqb name name = true) by now apply eqb_true_iff.
    rewrite Hrefl. now rewrite Bool.orb_true_r.
Qed.

Lemma getProp_setProp (name : jsstring) (v : JsValue)
  (props : list (jsstring * JsValue)) :
  getProp name (setProp name v props) = v.
Proof.
  assert (Hrefl : JsString.eqb name name = true) by now apply eqb_true_iff.
  unfold setProp. destruct (hasProp name props) eqn:Hhas.
  - unfold hasProp in Hhas. induction props as [| [k w] props IH];
      [discriminate Hhas |].
    simpl in *. destruct (JsString.eqb k name) eqn:Hk; simpl.
    + now rewrite Hk.
    + rewrite Hk. apply IH. exact Hhas.
  - unfold hasProp in Hhas. induction props as [| [k w] props IH]; simpl.
    + now rewrite Hrefl.
    + simpl in Hhas. apply Bool.orb_false_iff in Hhas.
      destruct Hhas as [Hk Hrest]. rewrite Hk. now apply IH.
Qed.

Lemma getProp_setProp_other (name other : jsstring) (v : JsValue)
  (props : list (jsstring * JsValue)) :
  other <> name ->
  getProp other (setProp name v props) = getProp other props.
Proof.
  intro Hne.
  assert (Hdiff : JsString.eqb name other = false).
  { destruct (JsString.eqb name other) eqn:H; [| reflexivity].
    apply eqb_true_iff in H. now contradiction Hne. }
  unfold setProp. destruct (hasProp name props).
  - induction props as [| [k w] props IH]; [reflexivity |].
    simpl. destruct (JsString.eqb k name) eqn:Hk; simpl.
    + apply eqb_true_iff in Hk. subst k. now rewrite Hdiff.
    + now rewrite IH.
  - induction props as [| [k w] props IH]; simpl.
    + now rewrite Hdiff.
    + now rewrite IH.
Qed.

End ObjectFacts.

(** X25: the options [forRoot] works with always carry an [auth] key.
    When the first argument is not itself an object with an [auth] key,
    it becomes the [auth] of the options, over any [auth] the second
    argument holds, every other option is the second argument's, and the
    call returns what the one-argument call with those options merged
    returns. *)
Theorem X25_forRoot_signatures_agree
  (superForRoot : JsValue -> AuthModule.DynamicModule)
  (auth : JsValue) (options : list (jsstring * JsValue)) :
  (forall arg1 arg2,
     AuthModule.isOptionsObject (AuthModule.normalizedOptions arg1 arg2) = true) /\
  (AuthModule.isOptionsObject auth = false ->
   AuthModule.optionOf "auth" (AuthModule.normalizedOptions auth (Some options))
   = auth /\
   (forall name : jsstring,
      name <> str "auth" ->
      match AuthModule.normalizedOptions auth (Some options) with
      | VObject props => getProp name props = getProp name options
      | _ => False
      end) /\
   AuthModule.forRoot superForRoot auth (Some options)
   = AuthModule.forRoot superForRoot
       (VObject (AuthModule.setProp (str "auth") auth options)) None).
Proof.
  split.
  - intros arg1 arg2. unfold AuthModule.normalizedOptions.
    destruct (AuthModule.isOptionsObject arg1) eqn:H; [exact H |].
    cbn [AuthModule.isOptionsObject]. apply hasProp_setProp.
  - intro Hauth.
    assert (Hnorm :
      AuthModule.normalizedOptions auth (Some options)
      = VObject (AuthModule.setProp (str "auth") auth options))
      by (unfold AuthModule.normalizedOptions; now rewrite Hauth).
    assert (Hone :
      AuthModule.normalizedOptions
        (VObject (AuthModule.setProp (str "auth") auth options)) None
      = VObject (AuthModule.setProp (str "auth") auth options)).
    { unfold AuthModule.normalizedOptions.
      cbn [AuthModule.isOptionsObject]. now rewrite hasProp_setProp. }
    repeat split.
    + rewrite Hnorm. unfold AuthModule.optionOf. apply getProp_setProp.
    + intros name Hne. rewrite Hnorm. now apply getProp_setProp_other.
    + unfold AuthModule.forRoot. now rewrite Hnorm, Hone.
Qed.

Lemma X25_forRoot_signatures_agree_witness :
  AuthModule.optionOf "auth"
    (AuthModule.normalizedOptions (VObject [(str "handler", VNumber 1)])
       (Some [(str "auth", VNull); (str "disableBodyParser", VBoolean true)]))
  = VObject [(str "handler", VNumber 1)].
Proof.
  apply (X25_forRoot_signatures_agree
           (fun _ => {| AuthModule.module := AuthModule.ConfiguredModule 0;
                        AuthModule.controllers := None;
                        AuthModule.providers := None;
                        AuthModule.rest := VUndefined |})
           (VObject [(str "handler", VNumber 1)])
           [(str "auth", VNull); (str "disableBodyParser", VBoolean true)]).
  reflexivity.
Defined.
